(** * LLM Council: the three-round debate protocol

    A shallow embedding of [config.py], [prompts.py] and [orchestrator.py].

    Python values that the code can observe are modelled as follows.
    - An exception is its class, as far as the [except] clauses of the
      program tell classes apart, and the text [str(e)].
    - A call that may raise yields a [pyres]: [Return v] or [Raise e].
    - [Dict[str, str]] is a [gmap string pyval]; a value is a [str] or
      [None] ([None] is what a JSON [null] reply or a fall-through of the
      retry loop produces).
    - Python's [float] is an uninterpreted type; [float()] and [int()] on
      strings are taken as given functions.
    - The network is an oracle telling, for every call of the protocol and
      every attempt number, what [session.post] does with the request.
    Diagnostic [print]s are not recorded; the [len(...)] they evaluate is,
    since it raises on [None]. *)

From stdpp Require Import gmap strings list fin_maps pretty.

(** ** Exceptions and results *)

Inductive exc_type :=
  | Exception      (* [Exception] itself or a subclass not named below *)
  | TimeoutError   (* [asyncio.TimeoutError] *)
  | ValueError
  | KeyError
  | TypeError.

Record exn := mk_exn { exc_class : exc_type; exc_str : string }.

Inductive pyres (A : Type) :=
  | Return (a : A)
  | Raise (e : exn).
Arguments Return {A} a.
Arguments Raise {A} e.

Global Instance pyres_ret : MRet pyres := λ A x, Return x.
Global Instance pyres_bind : MBind pyres := λ A B f m,
  match m with
  | Return x => f x
  | Raise e => Raise e
  end.

Definition raised {A} (r : pyres A) : bool :=
  match r with Return _ => false | Raise _ => true end.

(** ** Values *)

Inductive pyval :=
  | PyStr (s : string)
  | PyNone.

(** [f"{v}"] *)
Definition py_format (v : pyval) : string :=
  match v with
  | PyStr s => s
  | PyNone => "None"
  end.

(** [len(v)] *)
Definition py_len (v : pyval) : pyres nat :=
  match v with
  | PyStr s => Return (String.length s)
  | PyNone => Raise (mk_exn TypeError "object of type 'NoneType' has no len()")
  end.

(** [d[k]] on a dict with string keys; [str(KeyError(k))] is [repr(k)]. *)
Definition getitem {V} (d : gmap string V) (k : string) : pyres V :=
  match d !! k with
  | Some v => Return v
  | None => Raise (mk_exn KeyError ("'" +:+ k +:+ "'"))
  end.

(** Truth value of an [Optional[str]]: [None] and [""] are falsy. *)
Definition truthy (o : option string) : bool :=
  match o with
  | Some s => negb (String.eqb s "")
  | None => false
  end.

(** ** Substrings *)

Definition contains (sub s : string) : Prop :=
  ∃ pre post, s = pre +:+ sub +:+ post.

Fixpoint containsb (sub s : string) : bool :=
  String.prefix sub s ||
  match s with
  | EmptyString => false
  | String _ s' => containsb sub s'
  end.

(** * prompts.py *)

Definition MEMBER_A_PROMPT : string :=
"You are Council Member A, an analytical AI expert who provides thorough, 
data-driven analysis. Your role is to:

1. In Round 1: Provide your independent analysis of the query with clear reasoning
2. In Round 2: Review Council Member B's perspective and either:
   - Challenge their assumptions with evidence
   - Agree and strengthen their points
   - Offer alternative viewpoints

Be direct, analytical, and evidence-based in your responses.".

Definition MEMBER_B_PROMPT : string :=
"You are Council Member B, a critical thinking AI expert who questions 
assumptions and explores edge cases. Your role is to:

1. In Round 1: Provide your independent analysis focusing on risks, limitations, and alternatives
2. In Round 2: Review Council Member A's perspective and either:
   - Point out overlooked considerations or flaws
   - Acknowledge strong points
   - Present contrarian views with reasoning

Be skeptical, thorough, and constructively critical.".

Definition CHAIR_PROMPT : string :=
"You are the Chair, the final decision maker who synthesizes the council's debate.

Your role is to review the ENTIRE debate thread and produce a structured final verdict with:

## Areas of Complete Consensus
List all points where both Council Members agreed, either initially or after debate.

## Key Debates  
Highlight areas where the members disagreed. For each:
- State the disagreement clearly
- Summarize Member A's position and reasoning
- Summarize Member B's position and reasoning

## The Verdict
Based on the complete debate, provide your final decision/recommendation. Explain:
- Which perspectives you're adopting and why
- How you're resolving any disagreements
- Your conclusive answer to the original query

Be objective, balanced, and make clear final judgments.".

Definition get_member_a_prompt : string := MEMBER_A_PROMPT.
Definition get_member_b_prompt : string := MEMBER_B_PROMPT.
Definition get_chair_prompt : string := CHAIR_PROMPT.

Definition get_round2_prompt_for_member_a
    (user_query : string) (member_b_response : pyval) : string :=
  "Original Query: " +:+ user_query +:+ "

Council Member B's Analysis:
" +:+ py_format member_b_response +:+ "

Now provide your critique, counterarguments, or supporting arguments to Member B's analysis.".

Definition get_round2_prompt_for_member_b
    (user_query : string) (member_a_initial member_a_critique : pyval) : string :=
  "Original Query: " +:+ user_query +:+ "

Council Member A's Initial Analysis:
" +:+ py_format member_a_initial +:+ "

Council Member A's Critique of Your Analysis:
" +:+ py_format member_a_critique +:+ "

Now respond: critique Member A's points and defend or refine your position.".

Definition get_chair_synthesis_prompt
    (user_query : string)
    (round1_member_a round1_member_b round2_member_a round2_member_b : pyval)
    : string :=
  "Original Query: " +:+ user_query +:+ "

=== FULL DEBATE TRANSCRIPT ===

ROUND 1 - Council Member A (Analytical):
" +:+ py_format round1_member_a +:+ "

ROUND 1 - Council Member B (Critical):
" +:+ py_format round1_member_b +:+ "

ROUND 2 - Member A's Critique:
" +:+ py_format round2_member_a +:+ "

ROUND 2 - Member B's Response:
" +:+ py_format round2_member_b +:+ "

=== END TRANSCRIPT ===

Now provide your structured final verdict following the format specified in your instructions.".

Section Council.

(** Python's [float], and the built-ins [float(s)] and [int(s)], which
    raise [ValueError] on text they cannot parse. *)
Context {float : Type}.
Variable py_float : string → pyres float.
Variable py_int : string → pyres Z.

(** Python's [str.strip()]. *)
Variable py_strip : string → string.

(** * config.py *)

Record ModelConfig := {
  deployment_name : string;
  temperature : float;
  role : string;
  display_name : string
}.

Record CouncilConfig := {
  project_endpoint : string;
  api_key : option string;
  member_a : ModelConfig;
  member_b : ModelConfig;
  chair : ModelConfig;
  timeout : Z
}.

(** [CouncilConfig.from_env]; [environ] is [os.environ] as [load_dotenv()]
    leaves it.  [os.getenv(k)] is [environ !! k] and [os.getenv(k, d)] is
    [default d (environ !! k)]. *)
Definition from_env (environ : gmap string string) : pyres CouncilConfig :=
  match environ !! "AZURE_AI_PROJECT_ENDPOINT" with
  | None | Some "" =>
      Raise (mk_exn ValueError
        ("AZURE_AI_PROJECT_ENDPOINT not found. " +:+
         "Please copy .env.template to .env and configure your Azure settings."))
  | Some project_endpoint =>
      let api_key := environ !! "AZURE_AI_API_KEY" in
      let model_gpt41 := default "gpt-4.1" (environ !! "MODEL_DEPLOYMENT_GPT41") in
      let model_deepseek :=
        default "DeepSeek-V3.1" (environ !! "MODEL_DEPLOYMENT_DEEPSEEK") in
      let model_grok := default "grok-3" (environ !! "MODEL_DEPLOYMENT_GROK") in
      temp_council ← py_float (default "0.7" (environ !! "TEMPERATURE_COUNCIL_MEMBERS"));
      temp_chair ← py_float (default "0.3" (environ !! "TEMPERATURE_CHAIR"));
      timeout ← py_int (default "60" (environ !! "AGENT_TIMEOUT"));
      let member_a := {|
        deployment_name := model_gpt41;
        temperature := temp_council;
        role := "analytical";
        display_name := "Council Member A (Analytical - GPT-4.1)" |} in
      let member_b := {|
        deployment_name := model_deepseek;
        temperature := temp_council;
        role := "critical";
        display_name := "Council Member B (Critical - DeepSeek-V3.1)" |} in
      let chair := {|
        deployment_name := model_grok;
        temperature := temp_chair;
        role := "chair";
        display_name := "Chair (Grok-3)" |} in
      Return {|
        project_endpoint := project_endpoint;
        api_key := if truthy api_key then api_key else None;
        member_a := member_a;
        member_b := member_b;
        chair := chair;
        timeout := timeout |}
  end.

(** [CouncilConfig.validate] *)
Definition validate (self : CouncilConfig) : pyres unit :=
  if String.eqb (project_endpoint self) "" then
    Raise (mk_exn ValueError "Azure AI Project Endpoint is required")
  else if String.eqb (deployment_name (member_a self)) "" then
    Raise (mk_exn ValueError "MODEL_DEPLOYMENT_GPT41 is required")
  else if String.eqb (deployment_name (member_b self)) "" then
    Raise (mk_exn ValueError "MODEL_DEPLOYMENT_DEEPSEEK is required")
  else if String.eqb (deployment_name (chair self)) "" then
    Raise (mk_exn ValueError "MODEL_DEPLOYMENT_GROK is required")
  else if (timeout self <=? 0)%Z then
    Raise (mk_exn ValueError "AGENT_TIMEOUT must be positive")
  else Return ().

(** The module-level state: the process environment and the singleton
    [_config_instance]. *)
Record globals := {
  environ : gmap string string;
  _config_instance : option CouncilConfig
}.

(** [get_config]: the singleton is assigned before it is validated. *)
Definition get_config (g : globals) : pyres CouncilConfig * globals :=
  match _config_instance g with
  | Some c => (Return c, g)
  | None =>
      match from_env (environ g) with
      | Raise e => (Raise e, g)
      | Return c =>
          let g' := {| environ := environ g; _config_instance := Some c |} in
          (_ ← validate c; Return c, g')
      end
  end.

(** [reload_config] *)
Definition reload_config (g : globals) : pyres CouncilConfig * globals :=
  match from_env (environ g) with
  | Raise e => (Raise e, g)
  | Return c =>
      let g' := {| environ := environ g; _config_instance := Some c |} in
      (_ ← validate c; Return c, g')
  end.

(** [config or get_config()]: a [CouncilConfig] object is always truthy. *)
Definition config_or_get_config (config : option CouncilConfig) (g : globals)
    : pyres CouncilConfig * globals :=
  match config with
  | Some c => (Return c, g)
  | None => get_config g
  end.

(** * orchestrator.py *)

Record DebateOrchestrator := { config : CouncilConfig }.

(** [DebateOrchestrator.__init__] *)
Definition DebateOrchestrator__init__ (config : option CouncilConfig) (g : globals)
    : pyres DebateOrchestrator * globals :=
  match config_or_get_config config g with
  | (Raise e, g') => (Raise e, g')
  | (Return c, g') =>
      if negb (truthy (api_key c)) then
        (Raise (mk_exn ValueError
           ("AZURE_AI_API_KEY is required. " +:+
            "Please add your Azure AI Foundry API key to the .env file.")), g')
      else (Return {| config := c |}, g')
  end.

(** ** The HTTP exchange *)

Record message := { msg_role : string; msg_content : string }.

Record payload := {
  payload_messages : list message;
  payload_temperature : float;
  payload_max_tokens : Z
}.

(** The arguments of [session.post]: [url], [json], [headers] and the
    [total] of the [ClientTimeout]. *)
Record request := {
  req_url : string;
  req_json : payload;
  req_headers : gmap string (option string);
  req_timeout : Z
}.

(** What the program can see of a response: [response.status], the outcome
    of [await response.json()] followed by
    [result["choices"][0]["message"]["content"]] (the content, or whatever
    the parse or one of the subscripts raises), and the outcome of
    [await response.text()]. *)
Record response := {
  status : Z;
  json_content : pyres pyval;
  text : pyres string
}.

Inductive post_outcome :=
  | PostRaises (e : exn)          (* no response: timeout, transport error *)
  | PostResponds (r : response).

(** What one [_call_model] does on the wire. *)
Inductive event :=
  | Post (attempt : nat) (r : request)
  | Sleep (seconds : nat).

(** The body of the [try] of one attempt. *)
Definition try_body (o : post_outcome) : pyres pyval :=
  match o with
  | PostRaises e => Raise e
  | PostResponds response =>
      if (status response =? 200)%Z then
        json_content response
      else
        error_text ← text response;
        Raise (mk_exn Exception
          ("API returned status " +:+ pretty (status response) +:+ ": " +:+ error_text))
  end.

(** [for attempt in range(max_retries): try ... except ...]; falling off the
    end of the loop returns [None]. *)
Fixpoint retry_loop (session : nat → request → post_outcome) (req : request)
    (max_retries : nat) (attempts : list nat) : pyres pyval * list event :=
  match attempts with
  | [] => (Return PyNone, [])
  | attempt :: rest =>
      match try_body (session attempt req) with
      | Return content => (Return content, [Post attempt req])
      | Raise e =>
          match exc_class e with
          | TimeoutError =>
              if attempt <? max_retries - 1 then
                let wait_time := 2 ^ attempt in
                let '(r, evs) := retry_loop session req max_retries rest in
                (r, Post attempt req :: Sleep wait_time :: evs)
              else
                (Raise (mk_exn Exception
                   ("Model timed out after " +:+ pretty max_retries +:+ " attempts")),
                 [Post attempt req])
          | _ =>
              if attempt <? max_retries - 1 then
                let wait_time := 2 ^ attempt in
                let '(r, evs) := retry_loop session req max_retries rest in
                (r, Post attempt req :: Sleep wait_time :: evs)
              else
                (Raise (mk_exn Exception
                   ("Model failed after " +:+ pretty max_retries +:+ " attempts: "
                    +:+ exc_str e)),
                 [Post attempt req])
          end
      end
  end.

(** The [url], [headers] and [payload] that [_call_model] sets up before
    its loop, with the per-attempt [ClientTimeout]. *)
Definition request_of (self : DebateOrchestrator)
    (system_prompt user_message : string) (temperature : float)
    (model_name : string) : request :=
  let url :=
    project_endpoint (config self) +:+ "/openai/deployments/" +:+ model_name
    +:+ "/chat/completions?api-version=2024-10-21" in
  let headers : gmap string (option string) :=
    {[ "Content-Type" := Some "application/json";
       "api-key" := api_key (config self) ]} in
  let payload := {|
    payload_messages := [
      {| msg_role := "system"; msg_content := system_prompt |};
      {| msg_role := "user"; msg_content := user_message |} ];
    payload_temperature := temperature;
    payload_max_tokens := 4000 |} in
  {| req_url := url; req_json := payload; req_headers := headers;
     req_timeout := timeout (config self) |}.

(** [DebateOrchestrator._call_model] *)
Definition _call_model (self : DebateOrchestrator)
    (session : nat → request → post_outcome)
    (system_prompt user_message : string) (temperature : float)
    (model_name : string) (max_retries : nat) : pyres pyval * list event :=
  retry_loop session
    (request_of self system_prompt user_message temperature model_name)
    max_retries (seq 0 max_retries).

(** ** The debate *)

(** The five model calls of the protocol. *)
Inductive stage :=
  | round1_a
  | round1_b
  | round2_a
  | round2_b
  | round3.

Global Instance stage_eq_dec : EqDecision stage.
Proof. solve_decision. Defined.

(** The network as the debate meets it: what [session.post] does with a
    request, for each call of the protocol and each attempt of that call. *)
Definition network := stage → nat → request → post_outcome.

(** One finished [_call_model]: its wire events and what it gave back. *)
Record call := {
  call_stage : stage;
  call_events : list event;
  call_result : pyres pyval
}.

(** The debate's trace.  The two calls of an [asyncio.gather] run
    concurrently: their events interleave in time and are kept apart here;
    an awaited call runs alone. *)
Inductive step :=
  | Gathered (a b : call)
  | Awaited (c : call).

Definition calls_of (st : step) : list call :=
  match st with
  | Gathered a b => [a; b]
  | Awaited c => [c]
  end.

Definition calls (t : list step) : list call := concat (calls_of <$> t).

(** Number of requests among the events of a call. *)
Fixpoint count_posts (evs : list event) : nat :=
  match evs with
  | [] => 0
  | Post _ _ :: evs' => S (count_posts evs')
  | Sleep _ :: evs' => count_posts evs'
  end.

(** Number of requests sent for a stage in a debate. *)
Definition posts (s : stage) (t : list step) : nat :=
  sum_list ((λ c, if decide (call_stage c = s)
                  then count_posts (call_events c) else 0)
            <$> calls t).

(** Code that appends to the trace and may raise. *)
Definition debate (A : Type) : Type := list step → pyres A * list step.

Global Instance debate_ret : MRet debate := λ A x t, (Return x, t).
Global Instance debate_bind : MBind debate := λ A B f m t,
  match m t with
  | (Return x, t') => f x t'
  | (Raise e, t') => (Raise e, t')
  end.

Definition throw {A} (e : exn) : debate A := λ t, (Raise e, t).

Definition lift {A} (r : pyres A) : debate A := λ t, (r, t).

(** [try: body  except Exception as e: handler] *)
Definition try_except {A} (body : debate A) (handler : exn → debate A) : debate A :=
  λ t, match body t with
       | (Return x, t') => (Return x, t')
       | (Raise e, t') => handler e t'
       end.

Definition finished (s : stage) (m : pyres pyval * list event) : call :=
  {| call_stage := s; call_events := m.2; call_result := m.1 |}.

(** [await self._call_model(...)] *)
Definition await (s : stage) (m : pyres pyval * list event) : debate pyval :=
  λ t, (m.1, t ++ [Awaited (finished s m)]).

(** [await asyncio.gather(a, b, return_exceptions=True)]: both calls run to
    their end; an exception comes back as a value. *)
Definition gather (sa : stage) (ma : pyres pyval * list event)
    (sb : stage) (mb : pyres pyval * list event)
    : debate (pyres pyval * pyres pyval) :=
  λ t, (Return (ma.1, mb.1), t ++ [Gathered (finished sa ma) (finished sb mb)]).

(** [DebateOrchestrator.conduct_debate] *)
Definition conduct_debate (self : DebateOrchestrator) (net : network)
    (user_query : string) : pyres (gmap string pyval) * list step :=
  let responses : gmap string pyval :=
    {[ "round1_member_a" := PyStr "";
       "round1_member_b" := PyStr "";
       "round2_member_a" := PyStr "";
       "round2_member_b" := PyStr "";
       "round3_chair" := PyStr "" ]} in
  try_except
    ((* ROUND 1 *)
     round1_results ← gather
       round1_a (_call_model self (net round1_a)
         get_member_a_prompt user_query
         (temperature (member_a (config self)))
         (deployment_name (member_a (config self))) 3)
       round1_b (_call_model self (net round1_b)
         get_member_b_prompt user_query
         (temperature (member_b (config self)))
         (deployment_name (member_b (config self))) 3);
     r0 ← lift round1_results.1;
     r1 ← lift round1_results.2;
     let responses := <["round1_member_a" := r0]> responses in
     let responses := <["round1_member_b" := r1]> responses in
     _ ← lift (getitem responses "round1_member_a" ≫= py_len);
     _ ← lift (getitem responses "round1_member_b" ≫= py_len);
     (* ROUND 2 *)
     member_b_response ← lift (getitem responses "round1_member_b");
     let critique_prompt_a :=
       get_round2_prompt_for_member_a user_query member_b_response in
     v ← await round2_a (_call_model self (net round2_a)
         get_member_a_prompt critique_prompt_a
         (temperature (member_a (config self)))
         (deployment_name (member_a (config self))) 3);
     let responses := <["round2_member_a" := v]> responses in
     _ ← lift (getitem responses "round2_member_a" ≫= py_len);
     member_a_initial ← lift (getitem responses "round1_member_a");
     member_a_critique ← lift (getitem responses "round2_member_a");
     let critique_prompt_b :=
       get_round2_prompt_for_member_b user_query member_a_initial member_a_critique in
     v ← await round2_b (_call_model self (net round2_b)
         get_member_b_prompt critique_prompt_b
         (temperature (member_b (config self)))
         (deployment_name (member_b (config self))) 3);
     let responses := <["round2_member_b" := v]> responses in
     _ ← lift (getitem responses "round2_member_b" ≫= py_len);
     (* ROUND 3 *)
     a1 ← lift (getitem responses "round1_member_a");
     b1 ← lift (getitem responses "round1_member_b");
     a2 ← lift (getitem responses "round2_member_a");
     b2 ← lift (getitem responses "round2_member_b");
     let chair_prompt := get_chair_synthesis_prompt user_query a1 b1 a2 b2 in
     v ← await round3 (_call_model self (net round3)
         get_chair_prompt chair_prompt
         (temperature (chair (config self)))
         (deployment_name (chair (config self))) 3);
     let responses := <["round3_chair" := v]> responses in
     _ ← lift (getitem responses "round3_chair" ≫= py_len);
     mret responses)
    (λ e, throw (mk_exn Exception ("Debate execution failed: " +:+ exc_str e)))
    [].

(** [format_debate_output] *)
Definition format_debate_output (responses : gmap string pyval)
    (config : option CouncilConfig) (g : globals) : pyres string * globals :=
  match config_or_get_config config g with
  | (Raise e, g') => (Raise e, g')
  | (Return config, g') =>
      (r1a ← getitem responses "round1_member_a";
       r1b ← getitem responses "round1_member_b";
       r2a ← getitem responses "round2_member_a";
       r2b ← getitem responses "round2_member_b";
       r3c ← getitem responses "round3_chair";
       Return ("#  LLM Council Debate

##  Round 1: Independent Analysis

###  " +:+ display_name (member_a config) +:+ "
" +:+ py_format r1a +:+ "

---

###  " +:+ display_name (member_b config) +:+ "
" +:+ py_format r1b +:+ "

---

##  Round 2: Chain-of-Debate

###  Member A's Critique
" +:+ py_format r2a +:+ "

---

###  Member B's Response
" +:+ py_format r2b +:+ "

---

##  Round 3: Chair's Final Verdict (" +:+ deployment_name (chair config) +:+ ")

" +:+ py_format r3c +:+ "
"), g')
  end.

(** * ui.py *)

Record CouncilUI := {
  ui_config : CouncilConfig;
  ui_orchestrator : DebateOrchestrator
}.

(** [CouncilUI.__init__] *)
Definition CouncilUI__init__ (g : globals) : pyres CouncilUI * globals :=
  match get_config g with
  | (Raise e, g') => (Raise e, g')
  | (Return c, g') =>
      match DebateOrchestrator__init__ (Some c) g' with
      | (Raise e, g'') => (Raise e, g'')
      | (Return o, g'') => (Return {| ui_config := c; ui_orchestrator := o |}, g'')
      end
  end.

(** The message of the [except] clause of [process_query]. *)
Definition error_message (self : CouncilUI) (e : exn) : string :=
  " Error: " +:+ exc_str e +:+ "

**Troubleshooting Steps:**
1. Check your Azure configuration in `.env` file
2. Ensure you're logged in via Azure CLI: `az login`
3. Verify your model deployment names in Azure AI Foundry portal
4. Check Azure service health and quotas

**Configuration Status:**
- Endpoint: " +:+ project_endpoint (ui_config self) +:+ "
- Member A Model: " +:+ deployment_name (member_a (ui_config self)) +:+ "
- Member B Model: " +:+ deployment_name (member_b (ui_config self)) +:+ "
- Chair Model: " +:+ deployment_name (chair (ui_config self)) +:+ "
- Authentication: " +:+
  (if truthy (api_key (ui_config self)) then "API Key" else "Azure CLI") +:+ "
".

(** [CouncilUI.process_query]: an asynchronous generator, given by the list
    of what it yields, with the trace of the debate it ran and the module
    state it leaves.  [history] is unused. *)
Definition process_query (self : CouncilUI) (net : network) (user_query : string)
    (g : globals) : list string * list step * globals :=
  if String.eqb (py_strip user_query) "" then
    (["Please enter a question or topic for the council to debate."], [], g)
  else
    let started := " Initializing LLM Council...

 Round 1: Council members analyzing independently..." in
    match conduct_debate (ui_orchestrator self) net user_query with
    | (Raise e, t) => ([started; error_message self e], t, g)
    | (Return responses, t) =>
        match format_debate_output responses (Some (ui_config self)) g with
        | (Return formatted_output, g') => ([started; formatted_output], t, g')
        | (Raise e, g') => ([started; error_message self e], t, g')
        end
    end.

(** [user_submit], the handler of the submit button and of the text box: it
    gives back the new text of the box and the new history.  A history is a
    list of messages, [None] before the first one. *)
Definition user_submit (self : CouncilUI) (net : network) (user_message : string)
    (history : option (list message)) (g : globals)
    : (string * list message) * list step * globals :=
  let history := default [] history in
  let history := history ++ [{| msg_role := "user"; msg_content := user_message |}] in
  let '(yielded, t, g') := process_query self net user_message g in
  let current_response := foldl (λ _ response, response) "" yielded in
  let history :=
    history ++ [{| msg_role := "assistant"; msg_content := current_response |}] in
  (("", history), t, g').

(** * Properties *)

(** ** Definitions used in the statements *)

(** The error [_call_model] raises once the last attempt has failed with [e]:
    the two [else] branches of its [except] clauses. *)
Definition exhausted (max_retries : nat) (e : exn) : exn :=
  match exc_class e with
  | TimeoutError =>
      mk_exn Exception ("Model timed out after " +:+ pretty max_retries +:+ " attempts")
  | _ =>
      mk_exn Exception
        ("Model failed after " +:+ pretty max_retries +:+ " attempts: " +:+ exc_str e)
  end.

(** The wire events of a call whose attempts [0 .. k-1] failed and whose
    attempt [k] was the last one made. *)
Fixpoint attempts_trace (req : request) (k : nat) : list event :=
  match k with
  | 0 => [Post 0 req]
  | S k' => attempts_trace req k' ++ [Sleep (2 ^ k'); Post k req]
  end.

(** The user message of a request: the content of its second message. *)
Definition user_message_of (r : request) : option string :=
  msg_content <$> payload_messages (req_json r) !! 1.

(** The five calls as [conduct_debate] makes them. *)
Definition call_round1_a (self : DebateOrchestrator) (net : network) (q : string) :=
  _call_model self (net round1_a) get_member_a_prompt q
    (temperature (member_a (config self)))
    (deployment_name (member_a (config self))) 3.

Definition call_round1_b (self : DebateOrchestrator) (net : network) (q : string) :=
  _call_model self (net round1_b) get_member_b_prompt q
    (temperature (member_b (config self)))
    (deployment_name (member_b (config self))) 3.

Definition call_round2_a (self : DebateOrchestrator) (net : network) (q : string)
    (r1b : pyval) :=
  _call_model self (net round2_a) get_member_a_prompt
    (get_round2_prompt_for_member_a q r1b)
    (temperature (member_a (config self)))
    (deployment_name (member_a (config self))) 3.

Definition call_round2_b (self : DebateOrchestrator) (net : network) (q : string)
    (r1a r2a : pyval) :=
  _call_model self (net round2_b) get_member_b_prompt
    (get_round2_prompt_for_member_b q r1a r2a)
    (temperature (member_b (config self)))
    (deployment_name (member_b (config self))) 3.

Definition call_round3 (self : DebateOrchestrator) (net : network) (q : string)
    (r1a r1b r2a r2b : pyval) :=
  _call_model self (net round3) get_chair_prompt
    (get_chair_synthesis_prompt q r1a r1b r2a r2b)
    (temperature (chair (config self)))
    (deployment_name (chair (config self))) 3.

(** The error of the [except] clause of [conduct_debate]. *)
Definition debate_failed (e : exn) : exn :=
  mk_exn Exception ("Debate execution failed: " +:+ exc_str e).

(** What [len(None)] raises. *)
Definition no_len : exn :=
  mk_exn TypeError "object of type 'NoneType' has no len()".

(** The dictionary of a finished debate. *)
Definition transcript (r1a r1b r2a r2b r3c : string) : gmap string pyval :=
  {[ "round1_member_a" := PyStr r1a;
     "round1_member_b" := PyStr r1b;
     "round2_member_a" := PyStr r2a;
     "round2_member_b" := PyStr r2b;
     "round3_chair" := PyStr r3c ]}.

(** The runs of a debate: where it stops, what it gives back and what it
    leaves in the trace.  A call "comes back" with [Return v]; the debate
    goes on from it when [v] is a string. *)
Inductive runs (self : DebateOrchestrator) (net : network) (q : string)
    : pyres (gmap string pyval) → list step → Prop :=
  | run_round1_a_raises e :
      (call_round1_a self net q).1 = Raise e →
      runs self net q (Raise (debate_failed e))
        [Gathered (finished round1_a (call_round1_a self net q))
                  (finished round1_b (call_round1_b self net q))]
  | run_round1_b_raises v e :
      (call_round1_a self net q).1 = Return v →
      (call_round1_b self net q).1 = Raise e →
      runs self net q (Raise (debate_failed e))
        [Gathered (finished round1_a (call_round1_a self net q))
                  (finished round1_b (call_round1_b self net q))]
  | run_round1_none va vb :
      (call_round1_a self net q).1 = Return va →
      (call_round1_b self net q).1 = Return vb →
      va = PyNone ∨ vb = PyNone →
      runs self net q (Raise (debate_failed no_len))
        [Gathered (finished round1_a (call_round1_a self net q))
                  (finished round1_b (call_round1_b self net q))]
  | run_round2_a_stops a b r :
      (call_round1_a self net q).1 = Return (PyStr a) →
      (call_round1_b self net q).1 = Return (PyStr b) →
      (call_round2_a self net q (PyStr b)).1 = r →
      r = Return PyNone ∨ (∃ e, r = Raise e) →
      runs self net q
        (Raise (debate_failed (match r with Raise e => e | _ => no_len end)))
        [Gathered (finished round1_a (call_round1_a self net q))
                  (finished round1_b (call_round1_b self net q));
         Awaited (finished round2_a (call_round2_a self net q (PyStr b)))]
  | run_round2_b_stops a b a2 r :
      (call_round1_a self net q).1 = Return (PyStr a) →
      (call_round1_b self net q).1 = Return (PyStr b) →
      (call_round2_a self net q (PyStr b)).1 = Return (PyStr a2) →
      (call_round2_b self net q (PyStr a) (PyStr a2)).1 = r →
      r = Return PyNone ∨ (∃ e, r = Raise e) →
      runs self net q
        (Raise (debate_failed (match r with Raise e => e | _ => no_len end)))
        [Gathered (finished round1_a (call_round1_a self net q))
                  (finished round1_b (call_round1_b self net q));
         Awaited (finished round2_a (call_round2_a self net q (PyStr b)));
         Awaited (finished round2_b
                    (call_round2_b self net q (PyStr a) (PyStr a2)))]
  | run_round3_stops a b a2 b2 r :
      (call_round1_a self net q).1 = Return (PyStr a) →
      (call_round1_b self net q).1 = Return (PyStr b) →
      (call_round2_a self net q (PyStr b)).1 = Return (PyStr a2) →
      (call_round2_b self net q (PyStr a) (PyStr a2)).1 = Return (PyStr b2) →
      (call_round3 self net q (PyStr a) (PyStr b) (PyStr a2) (PyStr b2)).1 = r →
      r = Return PyNone ∨ (∃ e, r = Raise e) →
      runs self net q
        (Raise (debate_failed (match r with Raise e => e | _ => no_len end)))
        [Gathered (finished round1_a (call_round1_a self net q))
                  (finished round1_b (call_round1_b self net q));
         Awaited (finished round2_a (call_round2_a self net q (PyStr b)));
         Awaited (finished round2_b
                    (call_round2_b self net q (PyStr a) (PyStr a2)));
         Awaited (finished round3
                    (call_round3 self net q (PyStr a) (PyStr b) (PyStr a2)
                       (PyStr b2)))]
  | run_complete a b a2 b2 c :
      (call_round1_a self net q).1 = Return (PyStr a) →
      (call_round1_b self net q).1 = Return (PyStr b) →
      (call_round2_a self net q (PyStr b)).1 = Return (PyStr a2) →
      (call_round2_b self net q (PyStr a) (PyStr a2)).1 = Return (PyStr b2) →
      (call_round3 self net q (PyStr a) (PyStr b) (PyStr a2) (PyStr b2)).1
        = Return (PyStr c) →
      runs self net q (Return (transcript a b a2 b2 c))
        [Gathered (finished round1_a (call_round1_a self net q))
                  (finished round1_b (call_round1_b self net q));
         Awaited (finished round2_a (call_round2_a self net q (PyStr b)));
         Awaited (finished round2_b
                    (call_round2_b self net q (PyStr a) (PyStr a2)));
         Awaited (finished round3
                    (call_round3 self net q (PyStr a) (PyStr b) (PyStr a2)
                       (PyStr b2)))].

(** The declared dependencies of each call: the calls whose text goes into
    its user message. *)
Definition deps (s : stage) : list stage :=
  match s with
  | round1_a | round1_b => []
  | round2_a => [round1_b]
  | round2_b => [round1_a; round2_a]
  | round3 => [round1_a; round1_b; round2_a; round2_b]
  end.

(** A call is resolved when it came back without raising. *)
Definition resolved (c : call) : bool := negb (raised (call_result c)).

(** A trace is in dependency order when every call of every step has all its
    dependencies among the calls resolved in earlier steps. *)
Fixpoint in_order (done : list stage) (t : list step) : bool :=
  match t with
  | [] => true
  | st :: t' =>
      forallb (λ c, forallb (λ d, bool_decide (d ∈ done)) (deps (call_stage c)))
        (calls_of st)
      && in_order (done ++ (call_stage <$> List.filter resolved (calls_of st))) t'
  end.

(** The line break of the templates. *)
Definition NL : string := "
".

(** ** Definitions used in the further properties *)

(** Total time slept in the events of a call. *)
Fixpoint total_sleep (evs : list event) : nat :=
  match evs with
  | [] => 0
  | Sleep n :: evs' => n + total_sleep evs'
  | Post _ _ :: evs' => total_sleep evs'
  end.

(** The participant that answers each call, and its system prompt. *)
Definition participant (s : stage) (c : CouncilConfig) : ModelConfig :=
  match s with
  | round1_a | round2_a => member_a c
  | round1_b | round2_b => member_b c
  | round3 => chair c
  end.

Definition system_prompt_of (s : stage) : string :=
  match s with
  | round1_a | round2_a => MEMBER_A_PROMPT
  | round1_b | round2_b => MEMBER_B_PROMPT
  | round3 => CHAIR_PROMPT
  end.

(** The keys [format_debate_output] reads, in the order it reads them. *)
Definition RESPONSE_KEYS : list string :=
  ["round1_member_a"; "round1_member_b"; "round2_member_a"; "round2_member_b";
   "round3_chair"].

(** The page for five values, laid out line by line. *)
Definition debate_page (cfg : CouncilConfig) (r1a r1b r2a r2b r3c : pyval) : string :=
  "#  LLM Council Debate" +:+ NL +:+ NL +:+
  "##  Round 1: Independent Analysis" +:+ NL +:+ NL +:+
  "###  " +:+ display_name (member_a cfg) +:+ NL +:+
  py_format r1a +:+ NL +:+ NL +:+ "---" +:+ NL +:+ NL +:+
  "###  " +:+ display_name (member_b cfg) +:+ NL +:+
  py_format r1b +:+ NL +:+ NL +:+ "---" +:+ NL +:+ NL +:+
  "##  Round 2: Chain-of-Debate" +:+ NL +:+ NL +:+
  "###  Member A's Critique" +:+ NL +:+
  py_format r2a +:+ NL +:+ NL +:+ "---" +:+ NL +:+ NL +:+
  "###  Member B's Response" +:+ NL +:+
  py_format r2b +:+ NL +:+ NL +:+ "---" +:+ NL +:+ NL +:+
  "##  Round 3: Chair's Final Verdict (" +:+ deployment_name (chair cfg)
    +:+ ")" +:+ NL +:+ NL +:+
  py_format r3c +:+ NL.

(** The first message of [process_query] for a query that is not blank. *)
Definition STARTED : string :=
  " Initializing LLM Council..." +:+ NL +:+ NL +:+
  " Round 1: Council members analyzing independently...".

(** The wire events from attempt [a] on, when [len] attempts fail before
    the last one made. *)
Fixpoint trace_from (req : request) (a len : nat) : list event :=
  match len with
  | 0 => [Post a req]
  | S len' => Post a req :: Sleep (2 ^ a) :: trace_from req (S a) len'
  end.

(** ** Test doubles *)

(** [float] and [int] for the test doubles: a float is kept as its decimal
    text. *)
Definition text_float (s : string) : pyres string := Return s.

Definition text_int (s : string) : pyres Z :=
  match s with
  | "60" => Return 60%Z
  | _ => Raise (mk_exn ValueError ("invalid literal for int() with base 10: '" +:+ s +:+ "'"))
  end.

(** A configuration with the default deployments and display names. *)
Definition stub_config (key : option string) (t : float) : CouncilConfig := {|
  project_endpoint := "https://council.example";
  api_key := key;
  member_a := {|
    deployment_name := "gpt-4.1";
    temperature := t;
    role := "analytical";
    display_name := "Council Member A (Analytical - GPT-4.1)" |};
  member_b := {|
    deployment_name := "DeepSeek-V3.1";
    temperature := t;
    role := "critical";
    display_name := "Council Member B (Critical - DeepSeek-V3.1)" |};
  chair := {|
    deployment_name := "grok-3";
    temperature := t;
    role := "chair";
    display_name := "Chair (Grok-3)" |};
  timeout := 60
|}.

Definition stub_orchestrator (t : float) : DebateOrchestrator :=
  {| config := stub_config (Some "key") t |}.

(** Status 200 with a body whose content is [s]. *)
Definition replies (s : string) : post_outcome :=
  PostResponds {| status := 200; json_content := Return (PyStr s); text := Return s |}.

(** A status other than 200 with the error text [body]. *)
Definition refuses (code : Z) (body : string) : post_outcome :=
  PostResponds {|
    status := code;
    json_content := Raise (mk_exn Exception "Expecting value: line 1 column 1 (char 0)");
    text := Return body |}.

(** Status 200 with a JSON object that has no [choices]. *)
Definition garbled : post_outcome :=
  PostResponds {|
    status := 200;
    json_content := Raise (mk_exn KeyError "'choices'");
    text := Return "{}" |}.

(** The request times out, the exception carrying the text [msg]. *)
Definition times_out (msg : string) : post_outcome :=
  PostRaises (mk_exn TimeoutError msg).

(** Every call gets its fixed reply at the first attempt. *)
Definition stub_network : network := λ s _ _,
  replies (match s with
           | round1_a => "A1"
           | round1_b => "B1"
           | round2_a => "A2"
           | round2_b => "B2"
           | round3 => "C1"
           end).

(** As [stub_network], with every attempt of one call refused. *)
Definition down (s0 : stage) : network := λ s k r,
  if decide (s = s0) then refuses 500 "boom" else stub_network s k r.

(** Both round-1 calls fail, each with an error of its own. *)
Definition round1_down : network := λ s k r,
  match s with
  | round1_a => refuses 500 "member A is down"
  | round1_b => refuses 503 "member B is down"
  | _ => stub_network s k r
  end.

(** [strip] for the test doubles: removes blanks and tabs and line breaks at
    both ends. *)
Definition ascii_space (a : Ascii.ascii) : bool :=
  let n := Ascii.nat_of_ascii a in
  (n =? 32) || ((9 <=? n) && (n <=? 13)).

Fixpoint lstrip (s : string) : string :=
  match s with
  | String a s' => if ascii_space a then lstrip s' else s
  | EmptyString => EmptyString
  end.

Definition ascii_strip (s : string) : string :=
  String.rev (lstrip (String.rev (lstrip s))).

(** An environment that sets the endpoint and the key and nothing else. *)
Definition stub_environ : gmap string string :=
  {[ "AZURE_AI_PROJECT_ENDPOINT" := "https://council.example";
     "AZURE_AI_API_KEY" := "key" ]}.

(** An environment whose timeout does not validate. *)
Definition bad_timeout_environ : gmap string string :=
  <["AGENT_TIMEOUT" := "0"]> stub_environ.

(** [int] for the test doubles, on the two texts they use. *)
Definition small_int (s : string) : pyres Z :=
  match s with
  | "60" => Return 60%Z
  | "0" => Return 0%Z
  | _ => Raise (mk_exn ValueError ("invalid literal for int() with base 10: '" +:+ s +:+ "'"))
  end.

(** A user interface over the stub configuration. *)
Definition stub_ui (t : float) : CouncilUI :=
  {| ui_config := stub_config (Some "key") t;
     ui_orchestrator := stub_orchestrator t |}.

(** Round 1 of member B answers with a JSON [null]. *)
Definition null_reply : post_outcome :=
  PostResponds {| status := 200; json_content := Return PyNone; text := Return "" |}.

Definition round1_b_null : network := λ s k r,
  match s with
  | round1_b => null_reply
  | _ => stub_network s k r
  end.

(** What [from_env] loads from [stub_environ], given the two temperatures
    and the timeout that [float] and [int] read. *)
Definition loaded_config (tc th : float) (seconds : Z) : CouncilConfig := {|
  project_endpoint := "https://council.example";
  api_key := Some "key";
  member_a := {|
    deployment_name := "gpt-4.1";
    temperature := tc;
    role := "analytical";
    display_name := "Council Member A (Analytical - GPT-4.1)" |};
  member_b := {|
    deployment_name := "DeepSeek-V3.1";
    temperature := tc;
    role := "critical";
    display_name := "Council Member B (Critical - DeepSeek-V3.1)" |};
  chair := {|
    deployment_name := "grok-3";
    temperature := th;
    role := "chair";
    display_name := "Chair (Grok-3)" |};
  timeout := seconds
|}.

(** A process that has not loaded its configuration yet. *)
Definition fresh (environ : gmap string string) : globals :=
  {| environ := environ; _config_instance := None |}.

(** The proofs below unfold these by name only. *)
Arguments _call_model : simpl never.
Arguments request_of : simpl never.
Arguments getitem : simpl never.
Arguments get_round2_prompt_for_member_a : simpl never.
Arguments get_round2_prompt_for_member_b : simpl never.
Arguments get_chair_synthesis_prompt : simpl never.
Arguments call_round1_a : simpl never.
Arguments call_round1_b : simpl never.
Arguments call_round2_a : simpl never.
Arguments call_round2_b : simpl never.
Arguments call_round3 : simpl never.

(** ** Strings *)

Lemma string_app_cons x (a b : string) : String x a +:+ b = String x (a +:+ b).
Proof. reflexivity. Qed.

Lemma string_app_assoc (a b c : string) : (a +:+ b) +:+ c = a +:+ (b +:+ c).
Proof.
  induction a as [|x a IH]; [reflexivity|].
  rewrite !string_app_cons. by rewrite IH.
Qed.

Lemma string_app_nil_r (a : string) : a +:+ "" = a.
Proof.
  induction a as [|x a IH]; [reflexivity|].
  rewrite string_app_cons. by rewrite IH.
Qed.

Lemma contains_here (x s : string) : contains x (x +:+ s).
Proof. by exists "", s. Qed.

Lemma contains_later (x p s : string) : contains x s → contains x (p +:+ s).
Proof.
  intros (pre & post & ->). exists (p +:+ pre), post.
  by rewrite string_app_assoc.
Qed.

Lemma contains_refl (x : string) : contains x x.
Proof. exists "", "". by rewrite string_app_nil_r. Qed.

Lemma prefix_app (x s : string) : String.prefix x (x +:+ s) = true.
Proof.
  induction x as [|c x IH].
  - by destruct s.
  - rewrite string_app_cons. simpl.
    destruct (Ascii.ascii_dec c c); [done | congruence].
Qed.

Lemma containsb_unfold (x s : string) :
  containsb x s =
  String.prefix x s ||
  match s with EmptyString => false | String _ s' => containsb x s' end.
Proof. by destruct s. Qed.

Lemma containsb_complete (x s : string) : contains x s → containsb x s = true.
Proof.
  intros (pre & post & ->). induction pre as [|c pre IH].
  - change ("" +:+ x +:+ post) with (x +:+ post).
    by rewrite containsb_unfold, prefix_app.
  - rewrite string_app_cons, containsb_unfold, IH. apply orb_true_r.
Qed.

Lemma not_contains (x s : string) : containsb x s = false → ¬ contains x s.
Proof. intros Hb Hc. apply containsb_complete in Hc. congruence. Qed.

Ltac find_part :=
  solve [ repeat first [ apply contains_here | apply contains_refl
                       | apply contains_later ] ].

(** ** The retry loop *)

Lemma retry_loop_cons session req max_retries attempt rest :
  retry_loop session req max_retries (attempt :: rest) =
  match try_body (session attempt req) with
  | Return content => (Return content, [Post attempt req])
  | Raise e =>
      if attempt <? max_retries - 1 then
        (λ r, (r.1, Post attempt req :: Sleep (2 ^ attempt) :: r.2))
          (retry_loop session req max_retries rest)
      else (Raise (exhausted max_retries e), [Post attempt req])
  end.
Proof.
  simpl. destruct (try_body _) as [v|e]; [done|].
  unfold exhausted.
  destruct (exc_class e), (attempt <? max_retries - 1);
    try done; by destruct (retry_loop _ _ _ _).
Qed.

(** Every request on the wire is the one the call was set up with. *)
Lemma retry_loop_posts session req max_retries attempts k r :
  Post k r ∈ (retry_loop session req max_retries attempts).2 → r = req.
Proof.
  revert k r. induction attempts as [|a rest IH]; intros k r.
  - simpl. by intros ?%elem_of_nil.
  - rewrite retry_loop_cons.
    destruct (try_body _) as [v|e]; [|destruct (a <? max_retries - 1)]; simpl.
    + intros ?%list_elem_of_singleton. congruence.
    + rewrite !elem_of_cons. intros [?|[?|?]]; [congruence | done | eauto].
    + intros ?%list_elem_of_singleton. congruence.
Qed.

(** The attempt budget: at most one request per element of the range. *)
Lemma retry_loop_budget session req max_retries attempts :
  count_posts (retry_loop session req max_retries attempts).2 ≤ length attempts.
Proof.
  induction attempts as [|a rest IH]; [done|].
  rewrite retry_loop_cons.
  destruct (try_body _) as [v|e]; [|destruct (a <? max_retries - 1)]; simpl.
  all: lia.
Qed.

(** A call that makes at least one attempt sends at least one request. *)
Lemma retry_loop_first session req max_retries a rest :
  Post a req ∈ (retry_loop session req max_retries (a :: rest)).2.
Proof.
  rewrite retry_loop_cons.
  destruct (try_body _) as [v|e]; [|destruct (a <? max_retries - 1)]; simpl;
    apply elem_of_cons; by left.
Qed.

(** Three attempts, all outcomes: the call is decided by the first attempt
    that does not raise, or by the third failure. *)
Lemma call_model_3 self session sp um temp model :
  let req := request_of self sp um temp model in
  _call_model self session sp um temp model 3 =
  match try_body (session 0 req) with
  | Return v => (Return v, attempts_trace req 0)
  | Raise _ =>
      match try_body (session 1 req) with
      | Return v => (Return v, attempts_trace req 1)
      | Raise _ =>
          match try_body (session 2 req) with
          | Return v => (Return v, attempts_trace req 2)
          | Raise e => (Raise (exhausted 3 e), attempts_trace req 2)
          end
      end
  end.
Proof.
  intros req. unfold _call_model. fold req. simpl seq.
  rewrite !retry_loop_cons. simpl.
  by repeat destruct (try_body _).
Qed.

(** ** The debate monad, step by step *)

Lemma getitem_insert {V} (d : gmap string V) k v : getitem (<[k:=v]> d) k = Return v.
Proof. unfold getitem. by rewrite lookup_insert_eq. Qed.

Lemma getitem_insert_ne {V} (d : gmap string V) k k' v :
  k ≠ k' → getitem (<[k:=v]> d) k' = getitem d k'.
Proof. intros. unfold getitem. by rewrite lookup_insert_ne. Qed.

Lemma bind_lift {A B} (r : pyres A) (f : A → debate B) (t : list step) :
  (lift r ≫= f) t = match r with Return x => f x t | Raise e => (Raise e, t) end.
Proof. by destruct r. Qed.

Lemma bind_await {B} s m (f : pyval → debate B) (t : list step) :
  (await s m ≫= f) t =
  match m.1 with
  | Return v => f v (t ++ [Awaited (finished s m)])
  | Raise e => (Raise e, t ++ [Awaited (finished s m)])
  end.
Proof. unfold await, mbind, debate_bind. by destruct m.1. Qed.

Lemma bind_gather {B} sa ma sb mb
    (f : pyres pyval * pyres pyval → debate B) (t : list step) :
  (gather sa ma sb mb ≫= f) t =
  f (ma.1, mb.1) (t ++ [Gathered (finished sa ma) (finished sb mb)]).
Proof. reflexivity. Qed.

Lemma transcript_eq (a b a2 b2 c : string) :
  <["round3_chair" := PyStr c]> (<["round2_member_b" := PyStr b2]>
    (<["round2_member_a" := PyStr a2]> (<["round1_member_b" := PyStr b]>
      (<["round1_member_a" := PyStr a]> (transcript "" "" "" "" "")))))
  = transcript a b a2 b2 c.
Proof.
  apply map_eq. intros k. unfold transcript.
  repeat (rewrite lookup_insert; case_decide; [done|]). done.
Qed.

Lemma bind_return {A B} (x : A) (f : A → pyres B) : (Return x ≫= f) = f x.
Proof. reflexivity. Qed.

Lemma bind_raise {A B} (e : exn) (f : A → pyres B) : (Raise e ≫= f) = Raise e.
Proof. reflexivity. Qed.

Lemma len_str (s : string) : py_len (PyStr s) = Return (String.length s).
Proof. reflexivity. Qed.

Lemma len_none : py_len PyNone = Raise no_len.
Proof. reflexivity. Qed.

(** Runs the straight-line code between two model calls. *)
Ltac debate_step :=
  repeat first [ rewrite bind_lift
               | rewrite getitem_insert
               | rewrite getitem_insert_ne by done
               | rewrite bind_return
               | rewrite bind_raise
               | rewrite len_str
               | rewrite len_none ].

(** Every debate is one of the runs. *)
Lemma conduct_debate_runs self net q :
  runs self net q (conduct_debate self net q).1 (conduct_debate self net q).2.
Proof.
  unfold conduct_debate, try_except.
  rewrite bind_gather.
  fold (call_round1_a self net q). fold (call_round1_b self net q).
  rewrite bind_lift. cbn [fst snd].
  destruct (call_round1_a self net q).1 as [va|ea] eqn:Ea.
  2: { by apply run_round1_a_raises. }
  rewrite bind_lift.
  destruct (call_round1_b self net q).1 as [vb|eb] eqn:Eb.
  2: { by eapply run_round1_b_raises. }
  destruct va as [a|]; debate_step.
  2: { eapply run_round1_none; eauto. }
  destruct vb as [b|]; debate_step.
  2: { eapply run_round1_none; eauto. }
  rewrite bind_await. fold (call_round2_a self net q (PyStr b)).
  destruct (call_round2_a self net q (PyStr b)).1 as [[a2|]|e2] eqn:E2a;
    debate_step.
  2: { eapply (run_round2_a_stops _ _ _ a b (Return PyNone)); eauto. }
  2: { eapply (run_round2_a_stops _ _ _ a b (Raise e2)); eauto. }
  rewrite bind_await. fold (call_round2_b self net q (PyStr a) (PyStr a2)).
  destruct (call_round2_b self net q (PyStr a) (PyStr a2)).1 as [[b2|]|e3] eqn:E2b;
    debate_step.
  2: { eapply (run_round2_b_stops _ _ _ a b a2 (Return PyNone)); eauto. }
  2: { eapply (run_round2_b_stops _ _ _ a b a2 (Raise e3)); eauto. }
  rewrite bind_await.
  fold (call_round3 self net q (PyStr a) (PyStr b) (PyStr a2) (PyStr b2)).
  destruct (call_round3 self net q (PyStr a) (PyStr b) (PyStr a2) (PyStr b2)).1
    as [[c|]|e4] eqn:E3; debate_step.
  2: { eapply (run_round3_stops _ _ _ a b a2 b2 (Return PyNone)); eauto. }
  2: { eapply (run_round3_stops _ _ _ a b a2 b2 (Raise e4)); eauto. }
  cbn. fold (transcript "" "" "" "" ""). rewrite transcript_eq.
  by apply run_complete.
Qed.

(** ** The calls of a debate *)

Lemma call_model_posts self session sp um temp model n k r :
  Post k r ∈ (_call_model self session sp um temp model n).2 →
  r = request_of self sp um temp model.
Proof. apply retry_loop_posts. Qed.

Lemma user_message_of_request self sp um temp model :
  user_message_of (request_of self sp um temp model) = Some um.
Proof. reflexivity. Qed.

(** The calls in the trace of a run are the calls of the protocol, in order. *)
Lemma runs_calls self net q res t c :
  runs self net q res t → c ∈ calls t →
  c = finished round1_a (call_round1_a self net q) ∨
  c = finished round1_b (call_round1_b self net q) ∨
  (∃ b, (call_round1_b self net q).1 = Return (PyStr b) ∧
        c = finished round2_a (call_round2_a self net q (PyStr b))) ∨
  (∃ a a2 b,
        (call_round1_a self net q).1 = Return (PyStr a) ∧
        (call_round1_b self net q).1 = Return (PyStr b) ∧
        (call_round2_a self net q (PyStr b)).1 = Return (PyStr a2) ∧
        c = finished round2_b (call_round2_b self net q (PyStr a) (PyStr a2))) ∨
  (∃ a b a2 b2,
        (call_round1_a self net q).1 = Return (PyStr a) ∧
        (call_round1_b self net q).1 = Return (PyStr b) ∧
        (call_round2_a self net q (PyStr b)).1 = Return (PyStr a2) ∧
        (call_round2_b self net q (PyStr a) (PyStr a2)).1 = Return (PyStr b2) ∧
        c = finished round3
              (call_round3 self net q (PyStr a) (PyStr b) (PyStr a2) (PyStr b2))).
Proof.
  intros Hrun Hc.
  destruct Hrun; cbn in Hc;
    repeat (apply elem_of_cons in Hc as [->|Hc]);
    try (by apply elem_of_nil in Hc);
    first [ by left | by right; left | by do 2 right; left; eauto 6
          | by do 3 right; left; eauto 10 | by do 4 right; eauto 12 ].
Qed.

(** Two facts about the reply of one call name the same reply. *)
Ltac same_reply :=
  repeat match goal with
  | H1 : ?x = Return (PyStr _), H2 : ?x = Return (PyStr _) |- _ =>
      rewrite H1 in H2; injection H2 as <-
  end.

(** *** C2 *)

(** C2.  The user message built for round 2 of member A contains member B's
    round-1 text; the one built for round 2 of member B contains member A's
    round-1 text and member A's round-2 text; the chair's message contains
    all four earlier texts.  In a debate these are the messages sent: every
    request of a round-2 or round-3 call carries, as its user message, a
    text that contains what the calls it depends on returned. *)
Theorem later_messages_contain_earlier_texts :
  (∀ q r1a r1b r2a r2b : string,
     contains r1b (get_round2_prompt_for_member_a q (PyStr r1b)) ∧
     contains r1a (get_round2_prompt_for_member_b q (PyStr r1a) (PyStr r2a)) ∧
     contains r2a (get_round2_prompt_for_member_b q (PyStr r1a) (PyStr r2a)) ∧
     contains r1a
       (get_chair_synthesis_prompt q (PyStr r1a) (PyStr r1b) (PyStr r2a) (PyStr r2b)) ∧
     contains r1b
       (get_chair_synthesis_prompt q (PyStr r1a) (PyStr r1b) (PyStr r2a) (PyStr r2b)) ∧
     contains r2a
       (get_chair_synthesis_prompt q (PyStr r1a) (PyStr r1b) (PyStr r2a) (PyStr r2b)) ∧
     contains r2b
       (get_chair_synthesis_prompt q (PyStr r1a) (PyStr r1b) (PyStr r2a) (PyStr r2b))) ∧
  (∀ self net q c k r,
     c ∈ calls (conduct_debate self net q).2 →
     Post k r ∈ call_events c →
     ∃ um, user_message_of r = Some um ∧
       ∀ d c', d ∈ deps (call_stage c) →
         c' ∈ calls (conduct_debate self net q).2 → call_stage c' = d →
         ∃ text, call_result c' = Return (PyStr text) ∧ contains text um).
Proof.
  split.
  - intros. unfold get_round2_prompt_for_member_a, get_round2_prompt_for_member_b,
      get_chair_synthesis_prompt, py_format.
    repeat split; find_part.
  - intros self net q c k r Hc Hpost.
    pose proof (conduct_debate_runs self net q) as Hrun.
    destruct (runs_calls _ _ _ _ _ _ Hrun Hc)
      as [->|[->|[(b & Hb & ->)|[(a & a2 & b & Ha & Hb & Ha2 & ->)
         |(a & b & a2 & b2 & Ha & Hb & Ha2 & Hb2 & ->)]]]];
      cbn in Hpost; apply call_model_posts in Hpost as ->;
      rewrite user_message_of_request; eexists; (split; [done|]);
      intros d c' Hd Hc' Hst; cbn in Hd;
      repeat (apply elem_of_cons in Hd as [->|Hd]);
      try (by apply elem_of_nil in Hd);
      destruct (runs_calls _ _ _ _ _ _ Hrun Hc')
        as [->|[->|[(? & ? & ->)|[(? & ? & ? & ? & ? & ? & ->)
           |(? & ? & ? & ? & ? & ? & ? & ? & ->)]]]];
      cbn in Hst; try discriminate Hst; same_reply; cbn;
      eexists; (split; [eassumption|]);
      unfold get_round2_prompt_for_member_a, get_round2_prompt_for_member_b,
        get_chair_synthesis_prompt, py_format; find_part.
Qed.

(** *** C3 *)

(** C3, as amended.  A call on which all three attempts fail makes exactly
    three requests, sleeping 1 before the second and 2 before the third, and
    then raises: [Model failed after 3 attempts: ] followed by the text of
    the last failure, or, when the last failure is a timeout,
    [Model timed out after 3 attempts], which names the timeout and drops
    the text of the exception.  A call whose attempt [k] is the first that
    does not fail returns what that attempt gave, and makes no further
    request. *)
Theorem call_model_retry_policy self session sp um temp model :
  let req := request_of self sp um temp model in
  (∀ e0 e1 e2,
     try_body (session 0 req) = Raise e0 →
     try_body (session 1 req) = Raise e1 →
     try_body (session 2 req) = Raise e2 →
     _call_model self session sp um temp model 3 =
       (Raise (mk_exn Exception
          (match exc_class e2 with
           | TimeoutError => "Model timed out after 3 attempts"
           | _ => "Model failed after 3 attempts: " +:+ exc_str e2
           end)),
        [Post 0 req; Sleep 1; Post 1 req; Sleep 2; Post 2 req])) ∧
  (∀ k v,
     k < 3 →
     (∀ j, j < k → raised (try_body (session j req)) = true) →
     try_body (session k req) = Return v →
     _call_model self session sp um temp model 3 = (Return v, attempts_trace req k) ∧
     count_posts (attempts_trace req k) = S k).
Proof.
  intros req. split.
  - intros e0 e1 e2 H0 H1 H2. rewrite call_model_3. fold req.
    rewrite H0, H1, H2. unfold exhausted. by destruct (exc_class e2).
  - intros k v Hk Hfail Hok. rewrite call_model_3. fold req.
    destruct k as [|[|[|k]]]; [| | |lia].
    + by rewrite Hok.
    + pose proof (Hfail 0 ltac:(lia)) as F0.
      destruct (try_body (session 0 req)); [done|]. by rewrite Hok.
    + pose proof (Hfail 0 ltac:(lia)) as F0. pose proof (Hfail 1 ltac:(lia)) as F1.
      destruct (try_body (session 0 req)); [done|].
      destruct (try_body (session 1 req)); [done|]. by rewrite Hok.
Qed.

(** *** C9 *)

(** C9.  Every request sent in a debate, whatever the round and the
    participant, carries [max_tokens = 4000] in its payload. *)
Theorem every_request_caps_max_tokens self net q c k r :
  c ∈ calls (conduct_debate self net q).2 →
  Post k r ∈ call_events c →
  payload_max_tokens (req_json r) = 4000%Z.
Proof.
  intros Hc Hpost.
  destruct (runs_calls _ _ _ _ _ _ (conduct_debate_runs self net q) Hc)
    as [->|[->|[(? & ? & ->)|[(? & ? & ? & ? & ? & ? & ->)
       |(? & ? & ? & ? & ? & ? & ? & ? & ->)]]]];
    cbn in Hpost; by apply call_model_posts in Hpost as ->.
Qed.

(** *** C10 *)

(** C10.  An attempt that gets status 200 but whose body does not yield the
    content (the JSON parse or one of the subscripts raises) is a failed
    attempt like any other: before the last attempt the call sleeps and
    posts again, on the last attempt it raises the exhausted-retries error
    built from that exception, and in all cases the call sends at most three
    requests. *)
Theorem unreadable_reply_is_retried self session sp um temp model k resp e :
  let req := request_of self sp um temp model in
  let out := _call_model self session sp um temp model 3 in
  k < 3 →
  (∀ j, j < k → raised (try_body (session j req)) = true) →
  session k req = PostResponds resp →
  status resp = 200%Z →
  json_content resp = Raise e →
  try_body (session k req) = Raise e ∧
  (k < 2 → ∃ rest,
     out.2 = attempts_trace req k ++ Sleep (2 ^ k) :: Post (S k) req :: rest) ∧
  (k = 2 → out = (Raise (exhausted 3 e), attempts_trace req 2)) ∧
  count_posts out.2 ≤ 3.
Proof.
  intros req out Hk Hfail Hresp Hst Hjson.
  assert (try_body (session k req) = Raise e) as Hbody.
  { unfold try_body. by rewrite Hresp, Hst, Hjson. }
  split; [done|].
  split; [|split].
  - intros Hk2. unfold out. rewrite call_model_3. fold req.
    destruct k as [|[|k]]; [| |lia].
    + rewrite Hbody.
      destruct (try_body (session 1 req));
        [|destruct (try_body (session 2 req))]; cbn; eauto.
    + pose proof (Hfail 0 ltac:(lia)) as F0.
      destruct (try_body (session 0 req)); [done|]. rewrite Hbody.
      destruct (try_body (session 2 req)); cbn; eauto.
  - intros ->. unfold out. rewrite call_model_3. fold req.
    pose proof (Hfail 0 ltac:(lia)) as F0. pose proof (Hfail 1 ltac:(lia)) as F1.
    destruct (try_body (session 0 req)); [done|].
    destruct (try_body (session 1 req)); [done|]. by rewrite Hbody.
  - unfold out, _call_model. apply (retry_loop_budget session _ 3 (seq 0 3)).
Qed.

(** Case analysis on the run of a debate. *)
Ltac by_runs self net q :=
  let Hrun := fresh "Hrun" in
  pose proof (conduct_debate_runs self net q) as Hrun;
  revert Hrun;
  generalize (conduct_debate self net q).1 (conduct_debate self net q).2;
  intros ? ? Hrun; destruct Hrun.

(** Splits [c ∈ calls t] for an explicit trace [t]. *)
Ltac pick_call H :=
  cbn in H;
  repeat (apply elem_of_cons in H as [->|H]);
  try (by apply elem_of_nil in H).

(** Finds a given call in an explicit trace. *)
Ltac in_trace :=
  cbn; repeat (apply elem_of_cons; first [by left | right]).

(** Uses what is known of the replies. *)
Ltac use_replies :=
  repeat match goal with
  | H : (_ = Return _) ∨ (∃ e, _ = Raise e) |- _ => destruct H as [->|(? & ->)]
  | H : _ = PyNone ∨ _ = PyNone |- _ => destruct H as [-> | ->]
  | H : _.1 = _ |- _ => rewrite H in *
  end.

(** *** C1 *)

(** C1.  In every debate the trace is in dependency order: a round-2 or
    round-3 call appears only after each call it depends on has come back
    without raising.  If a round-1 call raises, the debate raises and no
    request is sent for round 2 or round 3.  If the round-2 call of member B
    raises, the debate raises and no request is sent for the chair. *)
Theorem calls_wait_for_their_dependencies self net q :
  let res := (conduct_debate self net q).1 in
  let t := (conduct_debate self net q).2 in
  in_order [] t = true ∧
  (∀ e,
     (call_round1_a self net q).1 = Raise e ∨
     (call_round1_b self net q).1 = Raise e →
     raised res = true ∧
     posts round2_a t = 0 ∧ posts round2_b t = 0 ∧ posts round3 t = 0) ∧
  (∀ c,
     c ∈ calls t → call_stage c = round2_b → raised (call_result c) = true →
     raised res = true ∧ posts round3 t = 0).
Proof.
  cbv zeta. by_runs self net q.
  all: split; [|split].
  all: try (unfold finished; use_replies; reflexivity).
  all: try (intros e' [He|He]; use_replies; try discriminate; by cbn).
  all: intros c' Hc' Hst Hr; pick_call Hc'; cbn in Hst; try discriminate Hst;
       cbn in Hr; use_replies; try discriminate; by cbn.
Qed.

(** *** C4 *)

(** C4.  A debate either returns the dictionary of the five texts that its
    five calls returned, in which case all five calls were made and none
    raised, or it raises; whenever a call raised, the debate raises.  Every
    request of the debate carries the original query in its user message. *)
Theorem debate_is_all_or_nothing self net q :
  let res := (conduct_debate self net q).1 in
  let t := (conduct_debate self net q).2 in
  ((∃ a b a2 b2 c,
      res = Return (transcript a b a2 b2 c) ∧
      call_stage <$> calls t = [round1_a; round1_b; round2_a; round2_b; round3] ∧
      call_result <$> calls t =
        [Return (PyStr a); Return (PyStr b); Return (PyStr a2);
         Return (PyStr b2); Return (PyStr c)])
   ∨ (∃ e, res = Raise (debate_failed e))) ∧
  (∀ c, c ∈ calls t → raised (call_result c) = true → raised res = true) ∧
  (∀ c k r, c ∈ calls t → Post k r ∈ call_events c →
     ∃ um, user_message_of r = Some um ∧ contains q um).
Proof.
  cbv zeta. split; [|split].
  - by_runs self net q; try (right; eauto; fail).
    left. exists a, b, a2, b2, c. cbn. use_replies. done.
  - by_runs self net q; try done.
    intros c' Hc' Hr. pick_call Hc'; cbn in Hr; use_replies; discriminate.
  - intros c k r Hc Hpost.
    destruct (runs_calls _ _ _ _ _ _ (conduct_debate_runs self net q) Hc)
      as [->|[->|[(? & ? & ->)|[(? & ? & ? & ? & ? & ? & ->)
         |(? & ? & ? & ? & ? & ? & ? & ? & ->)]]]];
      cbn in Hpost; apply call_model_posts in Hpost as ->;
      rewrite user_message_of_request; eexists; (split; [done|]);
      unfold get_round2_prompt_for_member_a, get_round2_prompt_for_member_b,
        get_chair_synthesis_prompt; find_part.
Qed.

(** *** C5 *)

(** C5, as amended.  The error of a failed debate is an [Exception] whose
    text is [Debate execution failed: ] followed by the text of the error
    that stopped it: the error raised by one of the model calls of the
    trace, or the [TypeError] of [len] when a call came back with [None].
    The text says nothing else: the round and the participant are not
    named. *)
Theorem debate_error_wraps_cause self net q e :
  let t := (conduct_debate self net q).2 in
  (conduct_debate self net q).1 = Raise e →
  exc_class e = Exception ∧
  ((∃ c e0, c ∈ calls t ∧ call_result c = Raise e0 ∧
      exc_str e = "Debate execution failed: " +:+ exc_str e0) ∨
   (∃ c, c ∈ calls t ∧ call_result c = Return PyNone ∧
      exc_str e =
        "Debate execution failed: object of type 'NoneType' has no len()")).
Proof.
  cbv zeta. by_runs self net q; intros [= <-]; (split; [done|]).
  - left. exists (finished round1_a (call_round1_a self net q)), e0.
    split; [in_trace | by use_replies].
  - left. exists (finished round1_b (call_round1_b self net q)), e0.
    split; [in_trace | by use_replies].
  - right. destruct H1 as [-> | ->].
    + exists (finished round1_a (call_round1_a self net q)).
      split; [in_trace | by use_replies].
    + exists (finished round1_b (call_round1_b self net q)).
      split; [in_trace | by use_replies].
  - destruct H2 as [->|[e2 ->]]; [right|left];
      exists (finished round2_a (call_round2_a self net q (PyStr b)));
      [|exists e2]; (split; [in_trace | by use_replies]).
  - destruct H3 as [->|[e2 ->]]; [right|left];
      exists (finished round2_b (call_round2_b self net q (PyStr a) (PyStr a2)));
      [|exists e2]; (split; [in_trace | by use_replies]).
  - destruct H4 as [->|[e2 ->]]; [right|left];
      exists (finished round3
                (call_round3 self net q (PyStr a) (PyStr b) (PyStr a2) (PyStr b2)));
      [|exists e2]; (split; [in_trace | by use_replies]).
Qed.

(** *** C6 *)

(** C6.  When the round-1 call of member A raises, the debate raises with
    member A's error, whatever member B's call did; when member A's call
    returns and member B's raises, the debate raises with member B's error.
    In both cases the two round-1 calls ran to their end and no other call
    was made. *)
Theorem round1_failure_precedence self net q :
  let res := (conduct_debate self net q).1 in
  let t := (conduct_debate self net q).2 in
  let round1 :=
    [Gathered (finished round1_a (call_round1_a self net q))
              (finished round1_b (call_round1_b self net q))] in
  (∀ ea, (call_round1_a self net q).1 = Raise ea →
     res = Raise (debate_failed ea) ∧ t = round1) ∧
  (∀ va eb,
     (call_round1_a self net q).1 = Return va →
     (call_round1_b self net q).1 = Raise eb →
     res = Raise (debate_failed eb) ∧ t = round1).
Proof.
  cbv zeta. by_runs self net q.
  all: split; [intros ea Ha | intros va' eb Ha Hb]; use_replies;
       try discriminate; simplify_eq; done.
Qed.

(** *** C7 *)

(** C7.  On a dictionary that holds the five texts, and with the
    configuration given, [format_debate_output] returns, touches no state,
    and its output is the title, the Round 1 header with each member's text
    under the member's display name, the Round 2 header with the critique
    and the response under their headers, and the Round 3 header with the
    chair's text, in this order. *)
Theorem format_debate_output_sections responses cfg g r1a r1b r2a r2b r3c :
  responses !! "round1_member_a" = Some (PyStr r1a) →
  responses !! "round1_member_b" = Some (PyStr r1b) →
  responses !! "round2_member_a" = Some (PyStr r2a) →
  responses !! "round2_member_b" = Some (PyStr r2b) →
  responses !! "round3_chair" = Some (PyStr r3c) →
  format_debate_output responses (Some cfg) g =
    (Return
       ("#  LLM Council Debate" +:+ NL +:+ NL +:+
        "##  Round 1: Independent Analysis" +:+ NL +:+ NL +:+
        "###  " +:+ display_name (member_a cfg) +:+ NL +:+
        r1a +:+ NL +:+ NL +:+ "---" +:+ NL +:+ NL +:+
        "###  " +:+ display_name (member_b cfg) +:+ NL +:+
        r1b +:+ NL +:+ NL +:+ "---" +:+ NL +:+ NL +:+
        "##  Round 2: Chain-of-Debate" +:+ NL +:+ NL +:+
        "###  Member A's Critique" +:+ NL +:+
        r2a +:+ NL +:+ NL +:+ "---" +:+ NL +:+ NL +:+
        "###  Member B's Response" +:+ NL +:+
        r2b +:+ NL +:+ NL +:+ "---" +:+ NL +:+ NL +:+
        "##  Round 3: Chair's Final Verdict (" +:+ deployment_name (chair cfg)
          +:+ ")" +:+ NL +:+ NL +:+
        r3c +:+ NL),
     g).
Proof.
  intros H1 H2 H3 H4 H5.
  unfold format_debate_output, config_or_get_config, getitem.
  rewrite H1, H2, H3, H4, H5. reflexivity.
Qed.

(** *** C8 *)

Lemma request_api_key self sp um temp model :
  req_headers (request_of self sp um temp model) !! "api-key"
  = Some (api_key (config self)).
Proof.
  unfold request_of. cbn [req_headers].
  rewrite lookup_insert_ne by done. apply lookup_singleton_eq.
Qed.

Lemma truthy_some (o : option string) :
  truthy o = true → ∃ key, o = Some key ∧ key ≠ "".
Proof.
  destruct o as [key|]; [|done]. simpl. intros Hk. exists key. split; [done|].
  intros ->. done.
Qed.

(** C8.  Constructing the orchestrator from a configuration whose API key
    is [None] or empty raises the [ValueError] that names
    [AZURE_AI_API_KEY]; constructing it from the environment, with no cached
    configuration and no [AZURE_AI_API_KEY] set, raises.  An orchestrator
    that was constructed has a non-empty key, and every request of every
    debate it runs carries that key in its [api-key] header. *)
Theorem orchestrator_requires_api_key :
  (∀ cfg g, truthy (api_key cfg) = false →
     DebateOrchestrator__init__ (Some cfg) g =
       (Raise (mk_exn ValueError
          "AZURE_AI_API_KEY is required. Please add your Azure AI Foundry API key to the .env file."),
        g)) ∧
  (∀ g, _config_instance g = None →
     truthy (environ g !! "AZURE_AI_API_KEY") = false →
     raised (DebateOrchestrator__init__ None g).1 = true) ∧
  (∀ cfg g self g',
     DebateOrchestrator__init__ cfg g = (Return self, g') →
     ∃ key, api_key (config self) = Some key ∧ key ≠ "" ∧
       ∀ net q c k r,
         c ∈ calls (conduct_debate self net q).2 →
         Post k r ∈ call_events c →
         req_headers r !! "api-key" = Some (Some key)).
Proof.
  split; [|split].
  - intros cfg g Hk. unfold DebateOrchestrator__init__, config_or_get_config.
    by rewrite Hk.
  - intros g Hnone Hk.
    unfold DebateOrchestrator__init__, config_or_get_config, get_config.
    rewrite Hnone.
    destruct (from_env (environ g)) as [c|e] eqn:Henv; [|done].
    assert (api_key c = None) as Hc.
    { unfold from_env in Henv. rewrite Hk in Henv.
      destruct (environ g !! "AZURE_AI_PROJECT_ENDPOINT") as [[|? ?]|];
        try discriminate Henv.
      repeat match type of Henv with
             | (?m ≫= _) = _ => destruct m; cbn in Henv; [|discriminate Henv]
             end.
      by injection Henv as <-. }
    destruct (validate c); cbn; [|done]. by rewrite Hc.
  - intros cfg g self g' Hinit.
    unfold DebateOrchestrator__init__ in Hinit.
    destruct (config_or_get_config cfg g) as [[c|e] g0]; [|discriminate Hinit].
    destruct (truthy (api_key c)) eqn:Hk; [|discriminate Hinit].
    cbn in Hinit. injection Hinit as <- <-. cbn [config].
    destruct (truthy_some _ Hk) as (key & Hkey & Hne).
    exists key. split; [done|]. split; [done|].
    intros net q c' k r Hc Hpost.
    destruct (runs_calls _ _ _ _ _ _ (conduct_debate_runs _ net q) Hc)
      as [->|[->|[(? & ? & ->)|[(? & ? & ? & ? & ? & ? & ->)
         |(? & ? & ? & ? & ? & ? & ? & ? & ->)]]]];
      cbn in Hpost; apply call_model_posts in Hpost as ->;
      rewrite request_api_key; cbn [config]; by rewrite Hkey.
Qed.

(** * Further properties *)

(** ** config.py *)

Lemma eqb_empty (s : string) : String.eqb s "" = false ↔ s ≠ "".
Proof.
  split.
  - intros H ->. by rewrite String.eqb_refl in H.
  - intros H. destruct (String.eqb s "") eqn:E; [|done].
    by apply String.eqb_eq in E.
Qed.

(** X1.  [validate] accepts a configuration exactly when the endpoint and
    the three deployment names are not empty and the timeout is positive.
    It does not look at the API key. *)
Theorem validate_accepts_iff (c : CouncilConfig) :
  (validate c = Return () ↔
     project_endpoint c ≠ "" ∧
     deployment_name (member_a c) ≠ "" ∧
     deployment_name (member_b c) ≠ "" ∧
     deployment_name (chair c) ≠ "" ∧
     (0 < timeout c)%Z) ∧
  (∀ key,
     validate {| project_endpoint := project_endpoint c; api_key := key;
                 member_a := member_a c; member_b := member_b c;
                 chair := chair c; timeout := timeout c |} = validate c).
Proof.
  split; [|done].
  unfold validate.
  destruct (String.eqb (project_endpoint c) "") eqn:E1;
    [apply String.eqb_eq in E1; split; [done | by intros (? & _)]|].
  destruct (String.eqb (deployment_name (member_a c)) "") eqn:E2;
    [apply String.eqb_eq in E2; split; [done | by intros (_ & ? & _)]|].
  destruct (String.eqb (deployment_name (member_b c)) "") eqn:E3;
    [apply String.eqb_eq in E3; split; [done | by intros (_ & _ & ? & _)]|].
  destruct (String.eqb (deployment_name (chair c)) "") eqn:E4;
    [apply String.eqb_eq in E4; split; [done | by intros (_ & _ & _ & ? & _)]|].
  apply eqb_empty in E1, E2, E3, E4.
  destruct (timeout c <=? 0)%Z eqn:E5.
  - apply Z.leb_le in E5. split; [done | intros (_ & _ & _ & _ & ?); lia].
  - apply Z.leb_gt in E5. done.
Qed.

(** What a successful [from_env] computed. *)
Lemma from_env_inv environ c :
  from_env environ = Return c →
  ∃ endpoint temp_council temp_chair seconds,
    environ !! "AZURE_AI_PROJECT_ENDPOINT" = Some endpoint ∧ endpoint ≠ "" ∧
    py_float (default "0.7" (environ !! "TEMPERATURE_COUNCIL_MEMBERS"))
      = Return temp_council ∧
    py_float (default "0.3" (environ !! "TEMPERATURE_CHAIR")) = Return temp_chair ∧
    py_int (default "60" (environ !! "AGENT_TIMEOUT")) = Return seconds ∧
    c = {|
      project_endpoint := endpoint;
      api_key := if truthy (environ !! "AZURE_AI_API_KEY")
                 then environ !! "AZURE_AI_API_KEY" else None;
      member_a := {|
        deployment_name := default "gpt-4.1" (environ !! "MODEL_DEPLOYMENT_GPT41");
        temperature := temp_council;
        role := "analytical";
        display_name := "Council Member A (Analytical - GPT-4.1)" |};
      member_b := {|
        deployment_name :=
          default "DeepSeek-V3.1" (environ !! "MODEL_DEPLOYMENT_DEEPSEEK");
        temperature := temp_council;
        role := "critical";
        display_name := "Council Member B (Critical - DeepSeek-V3.1)" |};
      chair := {|
        deployment_name := default "grok-3" (environ !! "MODEL_DEPLOYMENT_GROK");
        temperature := temp_chair;
        role := "chair";
        display_name := "Chair (Grok-3)" |};
      timeout := seconds |}.
Proof.
  unfold from_env. intros Henv.
  destruct (environ !! "AZURE_AI_PROJECT_ENDPOINT") as [[|a endpoint]|] eqn:He;
    try discriminate Henv.
  destruct (py_float (default "0.7" _)) as [tc|] eqn:H1; [|discriminate Henv].
  cbn in Henv.
  destruct (py_float (default "0.3" _)) as [th|] eqn:H2; [|discriminate Henv].
  cbn in Henv.
  destruct (py_int _) as [n|] eqn:H3; [|discriminate Henv].
  cbn in Henv. injection Henv as <-.
  exists (String a endpoint), tc, th, n. done.
Qed.

(** X2.  A configuration loaded by [from_env] has the endpoint of the
    environment, which is not empty; an API key that is [None] or a
    non-empty string, so an empty [AZURE_AI_API_KEY] counts as unset; one
    temperature for both members; and for each deployment the value of its
    variable, or the default name when the variable is unset. *)
Theorem from_env_loaded environ c :
  from_env environ = Return c →
  environ !! "AZURE_AI_PROJECT_ENDPOINT" = Some (project_endpoint c) ∧
  project_endpoint c ≠ "" ∧
  (api_key c = None ∧ truthy (environ !! "AZURE_AI_API_KEY") = false ∨
   ∃ key, api_key c = Some key ∧ key ≠ "" ∧
          environ !! "AZURE_AI_API_KEY" = Some key) ∧
  temperature (member_a c) = temperature (member_b c) ∧
  deployment_name (member_a c)
    = default "gpt-4.1" (environ !! "MODEL_DEPLOYMENT_GPT41") ∧
  deployment_name (member_b c)
    = default "DeepSeek-V3.1" (environ !! "MODEL_DEPLOYMENT_DEEPSEEK") ∧
  deployment_name (chair c)
    = default "grok-3" (environ !! "MODEL_DEPLOYMENT_GROK").
Proof.
  intros (endpoint & tc & th & n & He & Hne & _ & _ & _ & ->)%from_env_inv.
  cbn. repeat split; try done.
  destruct (environ !! "AZURE_AI_API_KEY") as [key|] eqn:Hk; cbn; [|by left].
  destruct (String.eqb key "") eqn:E; cbn; [by left|].
  right. exists key. by apply eqb_empty in E.
Qed.

(** X3.  The errors of [from_env], in the order the code meets them: an
    unset or empty endpoint raises the [ValueError] about the endpoint
    whatever else the environment holds; with the endpoint set, a council
    temperature that [float] refuses raises that error; then the chair
    temperature; then the timeout that [int] refuses. *)
Theorem from_env_errors environ :
  (environ !! "AZURE_AI_PROJECT_ENDPOINT" = None ∨
   environ !! "AZURE_AI_PROJECT_ENDPOINT" = Some "" →
   from_env environ = Raise (mk_exn ValueError
     "AZURE_AI_PROJECT_ENDPOINT not found. Please copy .env.template to .env and configure your Azure settings.")) ∧
  (∀ endpoint, environ !! "AZURE_AI_PROJECT_ENDPOINT" = Some endpoint →
     endpoint ≠ "" →
     (∀ e, py_float (default "0.7" (environ !! "TEMPERATURE_COUNCIL_MEMBERS"))
             = Raise e → from_env environ = Raise e) ∧
     (∀ tc e,
        py_float (default "0.7" (environ !! "TEMPERATURE_COUNCIL_MEMBERS"))
          = Return tc →
        py_float (default "0.3" (environ !! "TEMPERATURE_CHAIR")) = Raise e →
        from_env environ = Raise e) ∧
     (∀ tc th e,
        py_float (default "0.7" (environ !! "TEMPERATURE_COUNCIL_MEMBERS"))
          = Return tc →
        py_float (default "0.3" (environ !! "TEMPERATURE_CHAIR")) = Return th →
        py_int (default "60" (environ !! "AGENT_TIMEOUT")) = Raise e →
        from_env environ = Raise e)).
Proof.
  unfold from_env. split.
  - by intros [-> | ->].
  - intros endpoint -> Hne. destruct endpoint as [|a endpoint]; [done|].
    repeat split.
    + by intros e ->.
    + by intros tc e -> ->.
    + by intros tc th e -> -> ->.
Qed.

Lemma get_config_fresh g :
  _config_instance g = None →
  get_config g =
  match from_env (environ g) with
  | Raise e => (Raise e, g)
  | Return c =>
      (_ ← validate c; Return c,
       {| environ := environ g; _config_instance := Some c |})
  end.
Proof. intros H. unfold get_config. by rewrite H. Qed.

(** X4.  [get_config] validates once only.  When the environment loads but
    does not validate, the first call raises the validation error and
    leaves the loaded configuration in the singleton; the next call returns
    that configuration without raising. *)
Theorem get_config_validates_once g c e :
  _config_instance g = None →
  from_env (environ g) = Return c →
  validate c = Raise e →
  let g' := (get_config g).2 in
  (get_config g).1 = Raise e ∧
  _config_instance g' = Some c ∧
  get_config g' = (Return c, g').
Proof.
  intros Hnone Henv Hval. cbv zeta.
  rewrite (get_config_fresh g Hnone), Henv, Hval. cbn.
  repeat split; done.
Qed.

Lemma singleton_after_get_config g c g' :
  get_config g = (Return c, g') →
  _config_instance g' = Some c ∧ environ g' = environ g.
Proof.
  unfold get_config.
  destruct (_config_instance g) as [c0|] eqn:Hi.
  - by intros [= <- <-].
  - destruct (from_env (environ g)) as [c0|e0]; [|discriminate].
    destruct (validate c0); cbn; [|discriminate].
    intros [= <- <-]. done.
Qed.

(** X5.  [get_config] caches.  Once a call has returned a configuration,
    every later call returns the same one and changes nothing, whatever the
    environment has become in between. *)
Theorem get_config_cached g c g' environ' :
  get_config g = (Return c, g') →
  environ g' = environ g ∧
  get_config {| environ := environ'; _config_instance := _config_instance g' |}
    = (Return c, {| environ := environ'; _config_instance := _config_instance g' |}).
Proof.
  unfold get_config at 1.
  destruct (_config_instance g) as [c0|] eqn:Hi.
  - intros [= <- <-]. split; [done|]. unfold get_config. cbn. by rewrite Hi.
  - destruct (from_env (environ g)) as [c0|e0]; [|discriminate].
    destruct (validate c0); cbn; [|discriminate].
    intros [= <- <-]. done.
Qed.

(** X6.  [reload_config] reads the environment again whatever the singleton
    holds.  When the environment does not load, the error is raised and the
    singleton keeps what it held; when [reload_config] returns a
    configuration, it validated, and [get_config] returns it from then on. *)
Theorem reload_config_replaces g :
  (∀ e, from_env (environ g) = Raise e → reload_config g = (Raise e, g)) ∧
  (∀ c g', reload_config g = (Return c, g') →
     from_env (environ g) = Return c ∧
     validate c = Return () ∧
     get_config g' = (Return c, g')).
Proof.
  unfold reload_config. split.
  - by intros e ->.
  - intros c g'. destruct (from_env (environ g)) as [c0|e0]; [|discriminate].
    destruct (validate c0) as [[]|] eqn:Hv; cbn; [|discriminate].
    intros [= <- <-]. done.
Qed.

(** X7.  For a configuration that [from_env] loaded, [validate] fails only
    on a deployment variable set to the empty string or on a timeout that
    is not positive: the endpoint check cannot fail. *)
Theorem loaded_config_validates_iff environ c :
  from_env environ = Return c →
  (validate c = Return () ↔
     environ !! "MODEL_DEPLOYMENT_GPT41" ≠ Some "" ∧
     environ !! "MODEL_DEPLOYMENT_DEEPSEEK" ≠ Some "" ∧
     environ !! "MODEL_DEPLOYMENT_GROK" ≠ Some "" ∧
     (0 < timeout c)%Z).
Proof.
  intros (endpoint & tc & th & n & He & Hne & _ & _ & _ & ->)%from_env_inv.
  unfold validate. cbn.
  apply eqb_empty in Hne. rewrite Hne.
  destruct (environ !! "MODEL_DEPLOYMENT_GPT41") as [[|]|]; cbn;
    [split; [done | by intros (? & _)] | |].
  all: destruct (environ !! "MODEL_DEPLOYMENT_DEEPSEEK") as [[|]|]; cbn;
    [split; [done | by intros (_ & ? & _)] | |].
  all: destruct (environ !! "MODEL_DEPLOYMENT_GROK") as [[|]|]; cbn;
    [split; [done | by intros (_ & _ & ? & _)] | |].
  all: destruct (n <=? 0)%Z eqn:E5;
    [apply Z.leb_le in E5; split; [done | intros (_ & _ & _ & ?); lia]
    | apply Z.leb_gt in E5; done].
Qed.

(** ** The retry loop for any number of attempts *)

Lemma trace_from_snoc req len a :
  trace_from req a len ++ [Sleep (2 ^ (a + len)); Post (S (a + len)) req]
  = trace_from req a (S len).
Proof.
  revert a. induction len as [|len IH]; intros a.
  - cbn. by rewrite Nat.add_0_r.
  - change (trace_from req a (S len))
      with (Post a req :: Sleep (2 ^ a) :: trace_from req (S a) len).
    cbn [app]. rewrite <- Nat.add_succ_comm, IH. done.
Qed.

Lemma attempts_trace_from req k : attempts_trace req k = trace_from req 0 k.
Proof.
  induction k as [|k IH]; [done|].
  cbn [attempts_trace]. rewrite IH. apply (trace_from_snoc req k 0).
Qed.

Lemma trace_from_posts req len a : count_posts (trace_from req a len) = S len.
Proof. revert a. induction len as [|len IH]; intros a; cbn; [done | by rewrite IH]. Qed.

Lemma trace_from_sleep req len a :
  total_sleep (trace_from req a len) + 2 ^ a = 2 ^ (a + len).
Proof.
  revert a. induction len as [|len IH]; intros a.
  - cbn. by rewrite Nat.add_0_r.
  - cbn [trace_from total_sleep]. specialize (IH (S a)).
    rewrite <- Nat.add_succ_comm. cbn [Nat.pow] in IH. lia.
Qed.

Lemma retry_loop_success session req n v len : ∀ a rest,
  a + len < n →
  (∀ j, a ≤ j < a + len → raised (try_body (session j req)) = true) →
  try_body (session (a + len) req) = Return v →
  retry_loop session req n (seq a (S len) ++ rest) = (Return v, trace_from req a len).
Proof.
  induction len as [|len IH]; intros a rest Hlt Hfail Hok.
  - cbn [seq app]. rewrite retry_loop_cons.
    rewrite Nat.add_0_r in Hok. by rewrite Hok.
  - change (seq a (S (S len)) ++ rest) with (a :: (seq (S a) (S len) ++ rest)).
    rewrite retry_loop_cons.
    pose proof (Hfail a ltac:(lia)) as Ha.
    destruct (try_body (session a req)) as [|e]; [done|].
    assert ((a <? n - 1) = true) as -> by (apply Nat.ltb_lt; lia).
    rewrite (IH (S a) rest); [done | lia | intros j Hj; apply Hfail; lia |].
    by rewrite Nat.add_succ_comm.
Qed.

Lemma retry_loop_exhausted session req n e len : ∀ a,
  S (a + len) = n →
  (∀ j, a ≤ j < a + len → raised (try_body (session j req)) = true) →
  try_body (session (a + len) req) = Raise e →
  retry_loop session req n (seq a (S len))
  = (Raise (exhausted n e), trace_from req a len).
Proof.
  induction len as [|len IH]; intros a Hn Hfail Hlast.
  - cbn [seq]. rewrite retry_loop_cons.
    rewrite Nat.add_0_r in Hlast, Hn. rewrite Hlast.
    assert ((a <? n - 1) = false) as -> by (apply Nat.ltb_ge; lia). done.
  - change (seq a (S (S len))) with (a :: seq (S a) (S len)).
    rewrite retry_loop_cons.
    pose proof (Hfail a ltac:(lia)) as Ha.
    destruct (try_body (session a req)) as [|e']; [done|].
    assert ((a <? n - 1) = true) as -> by (apply Nat.ltb_lt; lia).
    rewrite (IH (S a)); [done | lia | intros j Hj; apply Hfail; lia |].
    by rewrite Nat.add_succ_comm.
Qed.

Lemma retry_loop_shape session req n m : ∀ a,
  a + S m = n →
  ∃ len, len ≤ m ∧
    (retry_loop session req n (seq a (S m))).2 = trace_from req a len.
Proof.
  induction m as [|m IH]; intros a Hn.
  - exists 0. split; [done|]. cbn [seq]. rewrite retry_loop_cons.
    destruct (try_body _); [done|].
    assert ((a <? n - 1) = false) as -> by (apply Nat.ltb_ge; lia). done.
  - change (seq a (S (S m))) with (a :: seq (S a) (S m)).
    rewrite retry_loop_cons.
    destruct (try_body _) as [|e]; [exists 0; split; [lia | done]|].
    assert ((a <? n - 1) = true) as -> by (apply Nat.ltb_lt; lia).
    destruct (IH (S a) ltac:(lia)) as (len & Hlen & Hev).
    exists (S len). split; [lia|]. cbv beta. cbn [fst snd trace_from].
    by rewrite Hev.
Qed.

(** X8.  For any number of attempts allowed: when attempt [k] is the first
    that does not fail, the call returns what it gave, having posted [k + 1]
    times with the sleeps 1, 2, 4, ... in between, and makes no further
    request. *)
Theorem call_model_first_success self session sp um temp model n k v :
  let req := request_of self sp um temp model in
  k < n →
  (∀ j, j < k → raised (try_body (session j req)) = true) →
  try_body (session k req) = Return v →
  _call_model self session sp um temp model n = (Return v, attempts_trace req k).
Proof.
  intros req Hk Hfail Hok. unfold _call_model. fold req.
  replace n with (S k + (n - S k)) at 2 by lia.
  rewrite seq_app, attempts_trace_from.
  apply retry_loop_success; [lia | intros j Hj; apply Hfail; lia | done].
Qed.

(** X9.  For any positive number [n] of attempts allowed: when every
    attempt fails, the call posts exactly [n] times, sleeps [2^(n-1) - 1]
    in total, and raises the exhausted-retries error built from the last
    failure. *)
Theorem call_model_gives_up self session sp um temp model n :
  let req := request_of self sp um temp model in
  let out := _call_model self session sp um temp model n in
  0 < n →
  (∀ j, j < n → raised (try_body (session j req)) = true) →
  (∃ e, try_body (session (n - 1) req) = Raise e ∧
        out = (Raise (exhausted n e), attempts_trace req (n - 1))) ∧
  count_posts out.2 = n ∧
  total_sleep out.2 = 2 ^ (n - 1) - 1.
Proof.
  intros req out Hn Hfail. unfold out, _call_model. fold req.
  pose proof (Hfail (n - 1) ltac:(lia)) as Hlast.
  destruct (try_body (session (n - 1) req)) as [|e] eqn:He; [done|].
  assert (retry_loop session req n (seq 0 n)
          = (Raise (exhausted n e), trace_from req 0 (n - 1))) as ->.
  { replace (seq 0 n) with (seq 0 (S (n - 1))) by (f_equal; lia).
    apply retry_loop_exhausted; [lia | intros j Hj; apply Hfail; lia | done]. }
  split; [|split].
  - exists e. by rewrite attempts_trace_from.
  - cbn [snd]. rewrite trace_from_posts. lia.
  - cbn [snd]. pose proof (trace_from_sleep req (n - 1) 0) as Hs.
    cbn in Hs. lia.
Qed.

(** X10.  Whatever the network does: with no attempt allowed the call
    returns [None] and posts nothing; otherwise its events are
    [Post 0, Sleep 1, Post 1, Sleep 2, ..., Post k] for some [k] below the
    number of attempts allowed, all with the one request the call set up.
    So it posts at most that many times, never sleeps after its last
    request, and sleeps less than [2^(n-1)] in total. *)
Theorem call_model_schedule self session sp um temp model n :
  let req := request_of self sp um temp model in
  let out := _call_model self session sp um temp model n in
  (n = 0 → out = (Return PyNone, [])) ∧
  (0 < n → ∃ k, k < n ∧ out.2 = attempts_trace req k) ∧
  count_posts out.2 ≤ n ∧
  total_sleep out.2 + 1 ≤ 2 ^ (n - 1) ∧
  (∀ k r, Post k r ∈ out.2 → r = req).
Proof.
  intros req out. unfold out, _call_model. fold req.
  destruct n as [|m].
  - repeat split; try done; try lia. cbn. by intros k r ?%elem_of_nil.
  - destruct (retry_loop_shape session req (S m) m 0 ltac:(lia))
      as (len & Hlen & Hev).
    split; [done|]. split; [|split; [|split]].
    + intros _. exists len. split; [lia|]. by rewrite attempts_trace_from.
    + rewrite Hev, trace_from_posts. lia.
    + rewrite Hev. pose proof (trace_from_sleep req len 0) as Hs. cbn in Hs.
      replace (S m - 1) with m by lia.
      assert (2 ^ len ≤ 2 ^ m) by (apply Nat.pow_le_mono_r; lia). lia.
    + apply retry_loop_posts.
Qed.

Lemma try_body_other_status r :
  status r ≠ 200%Z →
  try_body (PostResponds r) =
  match text r with
  | Return error_text =>
      Raise (mk_exn Exception
        ("API returned status " +:+ pretty (status r) +:+ ": " +:+ error_text))
  | Raise e => Raise e
  end.
Proof.
  intros Hs. unfold try_body.
  destruct (status r =? 200)%Z eqn:E; [apply Z.eqb_eq in E; done|].
  by destruct (text r).
Qed.

(** X11.  Any status other than 200, other 2xx codes included, fails the
    attempt, whatever the body holds.  When all three attempts get such a
    status, the call raises [Model failed after 3 attempts: API returned
    status S: T] with the status and the error text of the third response
    only. *)
Theorem refused_call_reports_last_status self session sp um temp model r0 r1 r2 t :
  let req := request_of self sp um temp model in
  session 0 req = PostResponds r0 → status r0 ≠ 200%Z →
  session 1 req = PostResponds r1 → status r1 ≠ 200%Z →
  session 2 req = PostResponds r2 → status r2 ≠ 200%Z →
  text r2 = Return t →
  _call_model self session sp um temp model 3 =
    (Raise (mk_exn Exception
       ("Model failed after 3 attempts: API returned status "
        +:+ pretty (status r2) +:+ ": " +:+ t)),
     [Post 0 req; Sleep 1; Post 1 req; Sleep 2; Post 2 req]).
Proof.
  intros req H0 S0 H1 S1 H2 S2 Ht.
  rewrite call_model_3. fold req. rewrite H0, H1, H2.
  rewrite !try_body_other_status by done. rewrite Ht.
  destruct (text r0), (text r1); done.
Qed.

(** ** The requests of a debate *)

(** X12.  Every request of a debate goes to the deployment of the
    participant whose turn it is, at the configured endpoint, with that
    participant's system prompt first and one user message second, that
    participant's temperature and the configured timeout.  In round 1 the
    user message is the query itself. *)
Theorem requests_go_to_the_participant self net q c k r :
  c ∈ calls (conduct_debate self net q).2 →
  Post k r ∈ call_events c →
  let who := participant (call_stage c) (config self) in
  req_url r =
    project_endpoint (config self) +:+ "/openai/deployments/"
    +:+ deployment_name who +:+ "/chat/completions?api-version=2024-10-21" ∧
  req_timeout r = timeout (config self) ∧
  payload_temperature (req_json r) = temperature who ∧
  (∃ um,
     payload_messages (req_json r) =
       [ {| msg_role := "system"; msg_content := system_prompt_of (call_stage c) |};
         {| msg_role := "user"; msg_content := um |} ] ∧
     (call_stage c = round1_a ∨ call_stage c = round1_b → um = q)).
Proof.
  intros Hc Hpost.
  destruct (runs_calls _ _ _ _ _ _ (conduct_debate_runs self net q) Hc)
    as [->|[->|[(? & ? & ->)|[(? & ? & ? & ? & ? & ? & ->)
       |(? & ? & ? & ? & ? & ? & ? & ? & ->)]]]];
    cbn in Hpost; apply call_model_posts in Hpost as ->; cbn;
    (split; [done|]); (split; [done|]); (split; [done|]);
    eexists; (split; [reflexivity|]); by intros [?|?].
Qed.

(** Evaluates [posts] on an explicit trace. *)
Ltac count_requests :=
  cbn;
  repeat first [ rewrite decide_True by done | rewrite decide_False by done ];
  lia.

Lemma call_model_3_bounds self session sp um temp model :
  1 ≤ count_posts (_call_model self session sp um temp model 3).2 ≤ 3.
Proof.
  rewrite call_model_3. cbv zeta.
  repeat destruct (try_body _); cbn; lia.
Qed.

(** X13.  A debate posts at most three requests for each of its five
    calls, so at most fifteen in all; it always posts at least one to each
    member in round 1; and a debate that returns has posted at least one
    for every call. *)
Theorem debate_request_budget self net q :
  let res := (conduct_debate self net q).1 in
  let t := (conduct_debate self net q).2 in
  (∀ s, posts s t ≤ 3) ∧
  posts round1_a t + posts round1_b t + posts round2_a t + posts round2_b t
    + posts round3 t ≤ 15 ∧
  1 ≤ posts round1_a t ∧
  1 ≤ posts round1_b t ∧
  (raised res = false → ∀ s, 1 ≤ posts s t).
Proof.
  cbv zeta. by_runs self net q.
  all: pose proof (call_model_3_bounds self (net round1_a) get_member_a_prompt q
         (temperature (member_a (config self)))
         (deployment_name (member_a (config self)))) as B1;
       fold (call_round1_a self net q) in B1.
  all: pose proof (call_model_3_bounds self (net round1_b) get_member_b_prompt q
         (temperature (member_b (config self)))
         (deployment_name (member_b (config self)))) as B2;
       fold (call_round1_b self net q) in B2.
  all: try (pose proof (call_model_3_bounds self (net round2_a) get_member_a_prompt
         (get_round2_prompt_for_member_a q (PyStr b))
         (temperature (member_a (config self)))
         (deployment_name (member_a (config self)))) as B3;
       fold (call_round2_a self net q (PyStr b)) in B3).
  all: try (pose proof (call_model_3_bounds self (net round2_b) get_member_b_prompt
         (get_round2_prompt_for_member_b q (PyStr a) (PyStr a2))
         (temperature (member_b (config self)))
         (deployment_name (member_b (config self)))) as B4;
       fold (call_round2_b self net q (PyStr a) (PyStr a2)) in B4).
  all: try (pose proof (call_model_3_bounds self (net round3) get_chair_prompt
         (get_chair_synthesis_prompt q (PyStr a) (PyStr b) (PyStr a2) (PyStr b2))
         (temperature (chair (config self)))
         (deployment_name (chair (config self)))) as B5;
       fold (call_round3 self net q (PyStr a) (PyStr b) (PyStr a2) (PyStr b2)) in B5).
  all: split; [intros s; destruct s; count_requests|].
  all: split; [count_requests|].
  all: split; [count_requests|].
  all: split; [count_requests|].
  all: cbn [raised]; intros Hres; try discriminate Hres.
  intros s; destruct s; count_requests.
Qed.

(** X14.  A call that comes back with [None] stops the debate.  In round 1
    an exception of the other member goes first: when member A's call gives
    [None] and member B's raises, the debate fails with member B's error.
    When no call of the debate raised, the debate fails with the
    [TypeError] of [len], and the call that gave [None] is a round-1 call
    or the last call made. *)
Theorem none_reply_stops_the_debate self net q c :
  let res := (conduct_debate self net q).1 in
  let t := (conduct_debate self net q).2 in
  c ∈ calls t →
  call_result c = Return PyNone →
  (∀ e, call_stage c = round1_a →
        (call_round1_b self net q).1 = Raise e → res = Raise (debate_failed e)) ∧
  ((∀ c', c' ∈ calls t → raised (call_result c') = false) →
     res = Raise (debate_failed no_len) ∧
     (call_stage c = round1_a ∨ last (calls t) = Some c)).
Proof.
  cbv zeta. by_runs self net q; intros Hc Hnone; pick_call Hc;
    cbn in Hnone; use_replies; try discriminate; split.
  all: try (intros e' Hst He; cbn in Hst; try discriminate Hst;
            try discriminate He; by injection He as <-).
  all: intros Hall.
  all: try (split; [done | cbn; by eauto]).
  all: try (specialize (Hall (finished round1_a (call_round1_a self net q))
                          ltac:(in_trace));
            cbn in Hall; use_replies; discriminate Hall).
  all: try (specialize (Hall (finished round1_b (call_round1_b self net q))
                          ltac:(in_trace));
            cbn in Hall; use_replies; discriminate Hall).
Qed.

(** ** The page *)

Lemma format_page responses cfg g v1 v2 v3 v4 v5 :
  responses !! "round1_member_a" = Some v1 →
  responses !! "round1_member_b" = Some v2 →
  responses !! "round2_member_a" = Some v3 →
  responses !! "round2_member_b" = Some v4 →
  responses !! "round3_chair" = Some v5 →
  format_debate_output responses (Some cfg) g
  = (Return (debate_page cfg v1 v2 v3 v4 v5), g).
Proof.
  intros H1 H2 H3 H4 H5.
  unfold format_debate_output, config_or_get_config, getitem.
  rewrite H1, H2, H3, H4, H5. reflexivity.
Qed.

Lemma transcript_lookup a b a2 b2 c :
  transcript a b a2 b2 c !! "round1_member_a" = Some (PyStr a) ∧
  transcript a b a2 b2 c !! "round1_member_b" = Some (PyStr b) ∧
  transcript a b a2 b2 c !! "round2_member_a" = Some (PyStr a2) ∧
  transcript a b a2 b2 c !! "round2_member_b" = Some (PyStr b2) ∧
  transcript a b a2 b2 c !! "round3_chair" = Some (PyStr c).
Proof.
  unfold transcript. repeat split.
  all: repeat (rewrite lookup_insert_ne by done).
  all: first [ apply lookup_insert_eq | apply lookup_singleton_eq ].
Qed.

(** X15.  With the configuration given, a dictionary that lacks one of the
    five keys makes [format_debate_output] raise the [KeyError] of the
    first key it lacks, in the order round 1 A, round 1 B, round 2 A,
    round 2 B, chair; the module state is untouched. *)
Theorem format_debate_output_missing_key
    (responses : gmap string pyval) cfg g i k :
  RESPONSE_KEYS !! i = Some k →
  responses !! k = None →
  (∀ j k', j < i → RESPONSE_KEYS !! j = Some k' → is_Some (responses !! k')) →
  format_debate_output responses (Some cfg) g
  = (Raise (mk_exn KeyError ("'" +:+ k +:+ "'")), g).
Proof.
  intros Hk Hnone Hbefore.
  assert (∀ j k', j < i → RESPONSE_KEYS !! j = Some k' →
            ∃ v, getitem responses k' = Return v) as Hget.
  { intros j k' Hj Hk'. destruct (Hbefore j k' Hj Hk') as [v Hv].
    exists v. unfold getitem. by rewrite Hv. }
  assert (getitem responses k = Raise (mk_exn KeyError ("'" +:+ k +:+ "'")))
    as Hmiss by (unfold getitem; by rewrite Hnone).
  unfold format_debate_output, config_or_get_config.
  destruct i as [|[|[|[|[|i]]]]]; cbn in Hk; [| | | | |done];
    injection Hk as <-.
  - by rewrite Hmiss.
  - destruct (Hget 0 _ ltac:(lia) eq_refl) as [? ->]. by rewrite Hmiss.
  - destruct (Hget 0 _ ltac:(lia) eq_refl) as [? ->].
    destruct (Hget 1 _ ltac:(lia) eq_refl) as [? ->]. by rewrite Hmiss.
  - destruct (Hget 0 _ ltac:(lia) eq_refl) as [? ->].
    destruct (Hget 1 _ ltac:(lia) eq_refl) as [? ->].
    destruct (Hget 2 _ ltac:(lia) eq_refl) as [? ->]. by rewrite Hmiss.
  - destruct (Hget 0 _ ltac:(lia) eq_refl) as [? ->].
    destruct (Hget 1 _ ltac:(lia) eq_refl) as [? ->].
    destruct (Hget 2 _ ltac:(lia) eq_refl) as [? ->].
    destruct (Hget 3 _ ltac:(lia) eq_refl) as [? ->]. by rewrite Hmiss.
Qed.

(** X16.  [format_debate_output] reads the five keys and nothing else: two
    dictionaries that agree on them give the same output, the same error
    and the same state, with the configuration given or not. *)
Theorem format_debate_output_reads_five_keys
    (responses1 responses2 : gmap string pyval) cfg g :
  (∀ k, k ∈ RESPONSE_KEYS → responses1 !! k = responses2 !! k) →
  format_debate_output responses1 cfg g = format_debate_output responses2 cfg g.
Proof.
  intros Hsame. unfold format_debate_output, getitem.
  destruct (config_or_get_config cfg g) as [[c|e] g']; [|done].
  rewrite !Hsame; [done | ..]; unfold RESPONSE_KEYS;
    repeat first [ apply list_elem_of_here | apply list_elem_of_further ].
Qed.

(** X17.  The two operations compose: on the dictionary that a debate
    returned, [format_debate_output] never raises, and the page it gives
    holds the five texts that the five calls returned. *)
Theorem format_of_a_returned_debate self net q responses :
  (conduct_debate self net q).1 = Return responses →
  ∃ a b a2 b2 c,
    (call_round1_a self net q).1 = Return (PyStr a) ∧
    (call_round1_b self net q).1 = Return (PyStr b) ∧
    (call_round2_a self net q (PyStr b)).1 = Return (PyStr a2) ∧
    (call_round2_b self net q (PyStr a) (PyStr a2)).1 = Return (PyStr b2) ∧
    (call_round3 self net q (PyStr a) (PyStr b) (PyStr a2) (PyStr b2)).1
      = Return (PyStr c) ∧
    ∀ cfg g,
      format_debate_output responses (Some cfg) g
      = (Return (debate_page cfg (PyStr a) (PyStr b) (PyStr a2) (PyStr b2)
                   (PyStr c)), g).
Proof.
  by_runs self net q; intros [= <-].
  exists a, b, a2, b2, c. do 5 (split; [done|]).
  intros cfg g.
  destruct (transcript_lookup a b a2 b2 c) as (L1 & L2 & L3 & L4 & L5).
  by apply format_page.
Qed.

(** X18.  Without a configuration given, [format_debate_output] takes the
    singleton when there is one; on a fresh process whose environment does
    not load, it raises the configuration error before it reads the
    dictionary. *)
Theorem format_debate_output_without_config (responses : gmap string pyval) g :
  (∀ c, _config_instance g = Some c →
     format_debate_output responses None g
     = format_debate_output responses (Some c) g) ∧
  (∀ e, _config_instance g = None → from_env (environ g) = Raise e →
     format_debate_output responses None g = (Raise e, g)).
Proof.
  unfold format_debate_output, config_or_get_config, get_config. split.
  - by intros c ->.
  - by intros e -> ->.
Qed.

(** ** ui.py *)

Lemma foldl_last {A} (d : A) (l : list A) :
  foldl (λ _ x, x) d l = default d (last l).
Proof.
  revert d. induction l as [|x l IH]; intros d; [done|].
  cbn [foldl]. rewrite IH. destruct l as [|y l]; [done|].
  change (last (x :: y :: l)) with (last (y :: l)).
  destruct (proj2 (last_is_Some (y :: l)) ltac:(done)) as [z ->]. done.
Qed.

Lemma blank_query_eq self net q g :
  py_strip q = "" →
  process_query self net q g =
  (["Please enter a question or topic for the council to debate."], [], g).
Proof. intros H. unfold process_query. by rewrite H. Qed.

Lemma process_query_started self net q g :
  py_strip q ≠ "" →
  process_query self net q g =
  match conduct_debate (ui_orchestrator self) net q with
  | (Raise e, t) => ([STARTED; error_message self e], t, g)
  | (Return responses, t) =>
      match format_debate_output responses (Some (ui_config self)) g with
      | (Return formatted_output, g') => ([STARTED; formatted_output], t, g')
      | (Raise e, g') => ([STARTED; error_message self e], t, g')
      end
  end.
Proof. intros H%eqb_empty. unfold process_query. by rewrite H. Qed.

(** X19.  For a query that [strip] leaves empty, [process_query] yields the
    one message asking for a question, runs no debate and sends no
    request. *)
Theorem process_query_blank self net q g :
  py_strip q = "" →
  process_query self net q g =
    (["Please enter a question or topic for the council to debate."], [], g) ∧
  ∀ s, posts s (process_query self net q g).1.2 = 0.
Proof.
  intros H. rewrite (blank_query_eq self net q g H). split; [done|].
  by intros s.
Qed.

(** X20.  For any other query, [process_query] never raises and yields
    exactly two messages: the notice that the council started, then the
    page of the debate when it returned, or the error message built from
    the debate's error when it raised.  It runs the debate once and leaves
    the module state as it was. *)
Theorem process_query_reports self net q g :
  py_strip q ≠ "" →
  let res := (conduct_debate (ui_orchestrator self) net q).1 in
  (process_query self net q g).1.2 = (conduct_debate (ui_orchestrator self) net q).2 ∧
  (process_query self net q g).2 = g ∧
  ((∃ a b a2 b2 c,
      res = Return (transcript a b a2 b2 c) ∧
      (process_query self net q g).1.1 =
        [STARTED;
         debate_page (ui_config self) (PyStr a) (PyStr b) (PyStr a2) (PyStr b2)
           (PyStr c)]) ∨
   (∃ e,
      res = Raise e ∧
      (process_query self net q g).1.1 = [STARTED; error_message self e] ∧
      contains (exc_str e) (error_message self e))).
Proof.
  intros Hq. cbv zeta. rewrite (process_query_started self net q g Hq).
  pose proof (conduct_debate_runs (ui_orchestrator self) net q) as Hrun.
  destruct (conduct_debate (ui_orchestrator self) net q) as [res t].
  cbn [fst snd] in *.
  destruct Hrun.
  7: { destruct (transcript_lookup a b a2 b2 c) as (L1 & L2 & L3 & L4 & L5).
       rewrite (format_page _ (ui_config self) g _ _ _ _ _ L1 L2 L3 L4 L5).
       cbn. repeat split; try done. left. by exists a, b, a2, b2, c. }
  all: cbn; repeat split; try done; right; eexists; (split; [done|]);
       (split; [done|]); unfold error_message; find_part.
Qed.

Lemma init_given_config cfg g :
  DebateOrchestrator__init__ (Some cfg) g =
  if truthy (api_key cfg) then (Return {| config := cfg |}, g)
  else (Raise (mk_exn ValueError
          "AZURE_AI_API_KEY is required. Please add your Azure AI Foundry API key to the .env file."),
        g).
Proof.
  unfold DebateOrchestrator__init__, config_or_get_config.
  by destruct (truthy (api_key cfg)).
Qed.

(** X21.  A user interface that was constructed holds one configuration,
    shared with its orchestrator, with a non-empty API key; [get_config]
    returns that configuration from then on.  So every error message it
    shows reports [Authentication: API Key]: the [Azure CLI] case cannot
    occur. *)
Theorem constructed_ui_has_a_key g ui g' :
  CouncilUI__init__ g = (Return ui, g') →
  config (ui_orchestrator ui) = ui_config ui ∧
  truthy (api_key (ui_config ui)) = true ∧
  get_config g' = (Return (ui_config ui), g') ∧
  ∀ e, ∃ before,
    error_message ui e = before +:+ "- Authentication: API Key" +:+ NL.
Proof.
  unfold CouncilUI__init__.
  destruct (get_config g) as [[c|e0] g0] eqn:Hget; [|discriminate].
  rewrite init_given_config.
  destruct (truthy (api_key c)) eqn:Hk; [|discriminate].
  intros [= <- <-]. cbn [ui_config ui_orchestrator config].
  split; [done|]. split; [done|]. split.
  - destruct (singleton_after_get_config g c g0 Hget) as [Hi He].
    unfold get_config. by rewrite Hi.
  - intros e. unfold error_message. cbn [ui_config]. rewrite Hk.
    exists (" Error: " +:+ exc_str e +:+ "

**Troubleshooting Steps:**
1. Check your Azure configuration in `.env` file
2. Ensure you're logged in via Azure CLI: `az login`
3. Verify your model deployment names in Azure AI Foundry portal
4. Check Azure service health and quotas

**Configuration Status:**
- Endpoint: " +:+ project_endpoint c +:+ "
- Member A Model: " +:+ deployment_name (member_a c) +:+ "
- Member B Model: " +:+ deployment_name (member_b c) +:+ "
- Chair Model: " +:+ deployment_name (chair c) +:+ NL).
    rewrite !string_app_assoc. reflexivity.
Qed.

(** X22.  [user_submit] clears the text box and appends two messages to the
    history it was given (or to an empty one when it was given [None]): the
    user's message, then the assistant's, whose content is the last message
    that [process_query] yielded. *)
Theorem user_submit_appends self net user_message history g :
  let out := user_submit self net user_message history g in
  let yielded := (process_query self net user_message g).1.1 in
  ∃ reply,
    last yielded = Some reply ∧
    out.1.1 =
      ("", default [] history ++
           [ {| msg_role := "user"; msg_content := user_message |};
             {| msg_role := "assistant"; msg_content := reply |} ]) ∧
    out.1.2 = (process_query self net user_message g).1.2 ∧
    out.2 = (process_query self net user_message g).2.
Proof.
  cbv zeta. unfold user_submit.
  assert (∃ reply, last (process_query self net user_message g).1.1 = Some reply)
    as [reply Hlast].
  { unfold process_query. destruct (String.eqb _ _); [by eexists|].
    destruct (conduct_debate _ _ _) as [[r|e] t]; [|by eexists].
    destruct (format_debate_output _ _ _) as [[o|e] g0]; by eexists. }
  exists reply. split; [done|].
  destruct (process_query self net user_message g) as [[yielded t] g0].
  cbn [fst snd] in *. rewrite foldl_last, Hlast. cbn [default].
  by rewrite <- app_assoc.
Qed.

End Council.

(** * The scenarios of the specification, and instances of the theorems *)

(** The fixed replies give the expected dictionary. *)
Example end_to_end_result :
  (conduct_debate (stub_orchestrator "0.7") stub_network
     "Should we use microservices?").1
  = Return (transcript "A1" "B1" "A2" "B2" "C1").
Proof. vm_compute. reflexivity. Qed.

(** With round 1 of member B down, three requests go out for it and none
    for the later calls. *)
Example end_to_end_failure :
  let t := (conduct_debate (stub_orchestrator "0.7") (down round1_b)
              "Should we use microservices?").2 in
  (posts round1_a t, posts round1_b t, posts round2_a t, posts round2_b t,
   posts round3 t) = (1, 3, 0, 0, 0).
Proof. vm_compute. reflexivity. Qed.

Lemma calls_wait_for_their_dependencies_witness :
  let self := stub_orchestrator "0.7" in
  let q := "Should we use microservices?" in
  let e := mk_exn Exception
             "Model failed after 3 attempts: API returned status 500: boom" in
  (call_round1_b self (down round1_b) q).1 = Raise e ∧
  raised (conduct_debate self (down round1_b) q).1 = true ∧
  posts round2_a (conduct_debate self (down round1_b) q).2 = 0 ∧
  posts round2_b (conduct_debate self (down round1_b) q).2 = 0 ∧
  posts round3 (conduct_debate self (down round1_b) q).2 = 0.
Proof.
  intros self q e.
  assert ((call_round1_b self (down round1_b) q).1 = Raise e) as He
    by (vm_compute; reflexivity).
  split; [exact He|].
  destruct (calls_wait_for_their_dependencies self (down round1_b) q)
    as (_ & Hround1 & _).
  apply (Hround1 e). right. exact He.
Defined.

Lemma later_messages_contain_earlier_texts_witness :
  let self := stub_orchestrator "0.7" in
  let q := "Should we use microservices?" in
  let c := finished round2_a (call_round2_a self stub_network q (PyStr "B1")) in
  let r := request_of self get_member_a_prompt
             (get_round2_prompt_for_member_a q (PyStr "B1")) "0.7" "gpt-4.1" in
  calls (conduct_debate self stub_network q).2 !! 2 = Some c ∧
  call_events c !! 0 = Some (Post 0 r) ∧
  ∃ um, user_message_of r = Some um ∧
    ∀ d c', d ∈ deps round2_a →
      c' ∈ calls (conduct_debate self stub_network q).2 → call_stage c' = d →
      ∃ text, call_result c' = Return (PyStr text) ∧ contains text um.
Proof.
  intros self q c r.
  assert (calls (conduct_debate self stub_network q).2 !! 2 = Some c) as Hc
    by (vm_compute; reflexivity).
  assert (call_events c !! 0 = Some (Post 0 r)) as Hr
    by (vm_compute; reflexivity).
  split; [exact Hc|]. split; [exact Hr|].
  destruct (@later_messages_contain_earlier_texts string) as [_ Hdebate].
  apply (Hdebate self stub_network q c 0 r).
  - exact (list_elem_of_lookup_2 _ _ _ Hc).
  - exact (list_elem_of_lookup_2 _ _ _ Hr).
Defined.

Lemma call_model_retry_policy_witness :
  let self := stub_orchestrator "0.7" in
  let session := λ (_ : nat) (_ : request), refuses 500 "boom" in
  let req := request_of self "system" "user" "0.7" "gpt-4.1" in
  try_body (session 2 req)
    = Raise (mk_exn Exception "API returned status 500: boom") ∧
  _call_model self session "system" "user" "0.7" "gpt-4.1" 3 =
    (Raise (mk_exn Exception
       "Model failed after 3 attempts: API returned status 500: boom"),
     [Post 0 req; Sleep 1; Post 1 req; Sleep 2; Post 2 req]).
Proof.
  intros self session req.
  split; [reflexivity|].
  destruct (call_model_retry_policy self session "system" "user" "0.7" "gpt-4.1")
    as [Hfail _].
  apply (Hfail (mk_exn Exception "API returned status 500: boom")
               (mk_exn Exception "API returned status 500: boom")
               (mk_exn Exception "API returned status 500: boom"));
    reflexivity.
Defined.

(** The claim fails when the last attempt times out: the text of the
    timeout is not in the error of the call. *)
Lemma timeout_text_is_dropped_counterexample :
  let self := stub_orchestrator "0.7" in
  let session := λ (_ : nat) (_ : request), times_out "read timed out" in
  let req := request_of self "system" "user" "0.7" "gpt-4.1" in
  (∀ k, try_body (session k req) = Raise (mk_exn TimeoutError "read timed out")) ∧
  ∃ e, (_call_model self session "system" "user" "0.7" "gpt-4.1" 3).1 = Raise e ∧
       exc_str e = "Model timed out after 3 attempts" ∧
       ¬ contains "read timed out" (exc_str e).
Proof.
  intros self session req. split; [reflexivity|].
  exists (mk_exn Exception "Model timed out after 3 attempts").
  split; [vm_compute; reflexivity|]. split; [reflexivity|].
  apply not_contains. vm_compute. reflexivity.
Qed.

Lemma debate_is_all_or_nothing_witness :
  let self := stub_orchestrator "0.7" in
  let q := "Should we use microservices?" in
  let c := finished round2_b
             (call_round2_b self (down round2_b) q (PyStr "A1") (PyStr "A2")) in
  calls (conduct_debate self (down round2_b) q).2 !! 3 = Some c ∧
  raised (call_result c) = true ∧
  raised (conduct_debate self (down round2_b) q).1 = true.
Proof.
  intros self q c.
  assert (calls (conduct_debate self (down round2_b) q).2 !! 3 = Some c) as Hc
    by (vm_compute; reflexivity).
  assert (raised (call_result c) = true) as Hr by (vm_compute; reflexivity).
  split; [exact Hc|]. split; [exact Hr|].
  destruct (debate_is_all_or_nothing self (down round2_b) q) as (_ & Hraise & _).
  exact (Hraise c (list_elem_of_lookup_2 _ _ _ Hc) Hr).
Defined.

Lemma debate_error_wraps_cause_witness :
  let self := stub_orchestrator "0.7" in
  let q := "Should we use microservices?" in
  let e := mk_exn Exception
    "Debate execution failed: Model failed after 3 attempts: API returned status 500: boom" in
  (conduct_debate self (down round1_b) q).1 = Raise e ∧
  exc_class e = Exception.
Proof.
  intros self q e.
  assert ((conduct_debate self (down round1_b) q).1 = Raise e) as He
    by (vm_compute; reflexivity).
  split; [exact He|].
  exact (proj1 (debate_error_wraps_cause self (down round1_b) q e He)).
Defined.

(** The claim fails: with round 1 of member B down, the error of the debate
    names neither the round nor the member, and it is the very error of a
    debate whose round 1 of member A is down. *)
Lemma debate_error_names_no_stage_counterexample :
  let self := stub_orchestrator "0.7" in
  let q := "Should we use microservices?" in
  let e := mk_exn Exception
    "Debate execution failed: Model failed after 3 attempts: API returned status 500: boom" in
  raised (call_round1_a self (down round1_b) q).1 = false ∧
  raised (call_round1_b self (down round1_b) q).1 = true ∧
  (conduct_debate self (down round1_b) q).1 = Raise e ∧
  raised (call_round1_a self (down round1_a) q).1 = true ∧
  raised (call_round1_b self (down round1_a) q).1 = false ∧
  (conduct_debate self (down round1_a) q).1 = Raise e ∧
  ¬ contains "member_b" (exc_str e) ∧
  ¬ contains "Member B" (exc_str e) ∧
  ¬ contains "round1" (exc_str e) ∧
  ¬ contains "Round 1" (exc_str e).
Proof.
  intros self q e.
  repeat split; try (vm_compute; reflexivity);
    apply not_contains; vm_compute; reflexivity.
Qed.

Lemma round1_failure_precedence_witness :
  let self := stub_orchestrator "0.7" in
  let q := "Should we use microservices?" in
  let ea := mk_exn Exception
    "Model failed after 3 attempts: API returned status 500: member A is down" in
  let eb := mk_exn Exception
    "Model failed after 3 attempts: API returned status 503: member B is down" in
  (call_round1_a self round1_down q).1 = Raise ea ∧
  (call_round1_b self round1_down q).1 = Raise eb ∧
  (conduct_debate self round1_down q).1 = Raise (debate_failed ea).
Proof.
  intros self q ea eb.
  assert ((call_round1_a self round1_down q).1 = Raise ea) as Ha
    by (vm_compute; reflexivity).
  split; [exact Ha|]. split; [vm_compute; reflexivity|].
  destruct (round1_failure_precedence self round1_down q) as [Hfirst _].
  exact (proj1 (Hfirst ea Ha)).
Defined.

Lemma format_debate_output_sections_witness :
  let g := {| environ := ∅; _config_instance := None |} in
  format_debate_output text_float text_int
    (transcript "A1" "B1" "A2" "B2" "C1")
    (Some (stub_config (Some "key") "0.7")) g =
  (Return "#  LLM Council Debate

##  Round 1: Independent Analysis

###  Council Member A (Analytical - GPT-4.1)
A1

---

###  Council Member B (Critical - DeepSeek-V3.1)
B1

---

##  Round 2: Chain-of-Debate

###  Member A's Critique
A2

---

###  Member B's Response
B2

---

##  Round 3: Chair's Final Verdict (grok-3)

C1
", g).
Proof.
  intros g.
  exact (format_debate_output_sections text_float text_int
           (transcript "A1" "B1" "A2" "B2" "C1")
           (stub_config (Some "key") "0.7") g "A1" "B1" "A2" "B2" "C1"
           eq_refl eq_refl eq_refl eq_refl eq_refl).
Defined.

Lemma orchestrator_requires_api_key_witness :
  let g := {| environ := {[ "AZURE_AI_PROJECT_ENDPOINT" := "https://council.example" ]};
              _config_instance := None |} in
  truthy (api_key (stub_config None "0.7")) = false ∧
  raised (DebateOrchestrator__init__ text_float text_int
            (Some (stub_config None "0.7")) g).1 = true ∧
  truthy (environ g !! "AZURE_AI_API_KEY") = false ∧
  raised (DebateOrchestrator__init__ text_float text_int None g).1 = true.
Proof.
  intros g.
  destruct (orchestrator_requires_api_key text_float text_int)
    as (Hgiven & Henv & _).
  split; [reflexivity|]. split.
  - rewrite (Hgiven (stub_config None "0.7") g eq_refl). reflexivity.
  - split; [reflexivity|]. apply (Henv g); reflexivity.
Defined.

Lemma every_request_caps_max_tokens_witness :
  let self := stub_orchestrator "0.7" in
  let q := "Should we use microservices?" in
  let c := finished round3
             (call_round3 self stub_network q (PyStr "A1") (PyStr "B1")
                (PyStr "A2") (PyStr "B2")) in
  let r := request_of self get_chair_prompt
             (get_chair_synthesis_prompt q (PyStr "A1") (PyStr "B1")
                (PyStr "A2") (PyStr "B2")) "0.7" "grok-3" in
  calls (conduct_debate self stub_network q).2 !! 4 = Some c ∧
  call_events c !! 0 = Some (Post 0 r) ∧
  payload_max_tokens (req_json r) = 4000%Z.
Proof.
  intros self q c r.
  assert (calls (conduct_debate self stub_network q).2 !! 4 = Some c) as Hc
    by (vm_compute; reflexivity).
  assert (call_events c !! 0 = Some (Post 0 r)) as Hr
    by (vm_compute; reflexivity).
  split; [exact Hc|]. split; [exact Hr|].
  exact (every_request_caps_max_tokens self stub_network q c 0 r
           (list_elem_of_lookup_2 _ _ _ Hc) (list_elem_of_lookup_2 _ _ _ Hr)).
Defined.

Lemma unreadable_reply_is_retried_witness :
  let self := stub_orchestrator "0.7" in
  let session := λ (k : nat) (_ : request),
    match k with 0 => garbled | _ => replies "A1" end in
  let req := request_of self "system" "user" "0.7" "gpt-4.1" in
  let out := _call_model self session "system" "user" "0.7" "gpt-4.1" 3 in
  session 0 req = garbled ∧
  try_body (session 0 req) = Raise (mk_exn KeyError "'choices'") ∧
  (0 < 2 → ∃ rest,
     out.2 = attempts_trace req 0 ++ Sleep (2 ^ 0) :: Post 1 req :: rest) ∧
  (0 = 2 → out = (Raise (exhausted 3 (mk_exn KeyError "'choices'")),
                  attempts_trace req 2)) ∧
  count_posts out.2 ≤ 3.
Proof.
  intros self session req out.
  split; [reflexivity|].
  refine (unreadable_reply_is_retried self session "system" "user" "0.7"
            "gpt-4.1" 0 _ (mk_exn KeyError "'choices'") _ _ eq_refl eq_refl eq_refl).
  - lia.
  - intros j Hj. lia.
Defined.

(** * Instances of the further properties *)

Lemma from_env_loaded_witness :
  let c := loaded_config "0.7" "0.3" 60 in
  from_env text_float small_int stub_environ = Return c ∧
  stub_environ !! "AZURE_AI_PROJECT_ENDPOINT" = Some (project_endpoint c) ∧
  project_endpoint c ≠ "" ∧
  (api_key c = None ∧ truthy (stub_environ !! "AZURE_AI_API_KEY") = false ∨
   ∃ key, api_key c = Some key ∧ key ≠ "" ∧
          stub_environ !! "AZURE_AI_API_KEY" = Some key) ∧
  temperature (member_a c) = temperature (member_b c) ∧
  deployment_name (member_a c)
    = default "gpt-4.1" (stub_environ !! "MODEL_DEPLOYMENT_GPT41") ∧
  deployment_name (member_b c)
    = default "DeepSeek-V3.1" (stub_environ !! "MODEL_DEPLOYMENT_DEEPSEEK") ∧
  deployment_name (chair c)
    = default "grok-3" (stub_environ !! "MODEL_DEPLOYMENT_GROK").
Proof.
  intros c.
  assert (from_env text_float small_int stub_environ = Return c) as H
    by (vm_compute; reflexivity).
  split; [exact H|].
  exact (from_env_loaded text_float small_int stub_environ c H).
Defined.

Lemma from_env_errors_witness :
  (∅ : gmap string string) !! "AZURE_AI_PROJECT_ENDPOINT" = None ∧
  from_env text_float small_int ∅ = Raise (mk_exn ValueError
    "AZURE_AI_PROJECT_ENDPOINT not found. Please copy .env.template to .env and configure your Azure settings.").
Proof.
  split; [reflexivity|].
  apply (proj1 (from_env_errors text_float small_int ∅)). left. reflexivity.
Defined.

Lemma get_config_validates_once_witness :
  let g := fresh bad_timeout_environ in
  let c := loaded_config "0.7" "0.3" 0 in
  let e := mk_exn ValueError "AGENT_TIMEOUT must be positive" in
  let g' := (get_config text_float small_int g).2 in
  from_env text_float small_int (environ g) = Return c ∧
  validate c = Raise e ∧
  (get_config text_float small_int g).1 = Raise e ∧
  _config_instance g' = Some c ∧
  get_config text_float small_int g' = (Return c, g').
Proof.
  intros g c e g'.
  assert (from_env text_float small_int (environ g) = Return c) as H1
    by (vm_compute; reflexivity).
  assert (validate c = Raise e) as H2 by reflexivity.
  split; [exact H1|]. split; [exact H2|].
  exact (get_config_validates_once text_float small_int g c e eq_refl H1 H2).
Defined.

Lemma get_config_cached_witness :
  let g := fresh stub_environ in
  let c := loaded_config "0.7" "0.3" 60 in
  let g' := {| environ := stub_environ; _config_instance := Some c |} in
  get_config text_float small_int g = (Return c, g') ∧
  get_config text_float small_int {| environ := ∅; _config_instance := Some c |}
    = (Return c, {| environ := ∅; _config_instance := Some c |}).
Proof.
  intros g c g'.
  assert (get_config text_float small_int g = (Return c, g')) as H
    by (vm_compute; reflexivity).
  split; [exact H|].
  exact (proj2 (get_config_cached text_float small_int g c g' ∅ H)).
Defined.

Lemma reload_config_replaces_witness :
  let c := loaded_config "0.7" "0.3" 60 in
  let g := {| environ := ∅; _config_instance := Some c |} in
  let e := mk_exn ValueError
    "AZURE_AI_PROJECT_ENDPOINT not found. Please copy .env.template to .env and configure your Azure settings." in
  from_env text_float small_int (environ g) = Raise e ∧
  reload_config text_float small_int g = (Raise e, g).
Proof.
  intros c g e.
  assert (from_env text_float small_int (environ g) = Raise e) as H
    by reflexivity.
  split; [exact H|].
  exact (proj1 (reload_config_replaces text_float small_int g) e H).
Defined.

Lemma loaded_config_validates_iff_witness :
  let c := loaded_config "0.7" "0.3" 0 in
  from_env text_float small_int bad_timeout_environ = Return c ∧
  (validate c = Return () ↔
     bad_timeout_environ !! "MODEL_DEPLOYMENT_GPT41" ≠ Some "" ∧
     bad_timeout_environ !! "MODEL_DEPLOYMENT_DEEPSEEK" ≠ Some "" ∧
     bad_timeout_environ !! "MODEL_DEPLOYMENT_GROK" ≠ Some "" ∧
     (0 < timeout c)%Z).
Proof.
  intros c.
  assert (from_env text_float small_int bad_timeout_environ = Return c) as H
    by (vm_compute; reflexivity).
  split; [exact H|].
  exact (loaded_config_validates_iff text_float small_int bad_timeout_environ c H).
Defined.

Lemma call_model_first_success_witness :
  let self := stub_orchestrator "0.7" in
  let session := λ (k : nat) (_ : request),
    match k with 0 => times_out "" | _ => replies "A1" end in
  let req := request_of self "system" "user" "0.7" "gpt-4.1" in
  try_body (session 1 req) = Return (PyStr "A1") ∧
  _call_model self session "system" "user" "0.7" "gpt-4.1" 5
    = (Return (PyStr "A1"), [Post 0 req; Sleep 1; Post 1 req]).
Proof.
  intros self session req.
  split; [reflexivity|].
  refine (call_model_first_success self session "system" "user" "0.7" "gpt-4.1"
            5 1 (PyStr "A1") _ _ eq_refl).
  - lia.
  - intros j Hj. assert (j = 0) as -> by lia. reflexivity.
Defined.

Lemma call_model_gives_up_witness :
  let self := stub_orchestrator "0.7" in
  let session := λ (_ : nat) (_ : request), refuses 500 "boom" in
  let req := request_of self "system" "user" "0.7" "gpt-4.1" in
  let out := _call_model self session "system" "user" "0.7" "gpt-4.1" 4 in
  (∃ e, try_body (session (4 - 1) req) = Raise e ∧
        out = (Raise (exhausted 4 e), attempts_trace req (4 - 1))) ∧
  count_posts out.2 = 4 ∧
  total_sleep out.2 = 2 ^ (4 - 1) - 1.
Proof.
  intros self session req out.
  refine (call_model_gives_up self session "system" "user" "0.7" "gpt-4.1" 4 _ _).
  - lia.
  - intros j Hj. reflexivity.
Defined.

Lemma refused_call_reports_last_status_witness :
  let self := stub_orchestrator "0.7" in
  let session := λ (k : nat) (_ : request),
    match k with
    | 0 => refuses 500 "boom"
    | 1 => refuses 503 "busy"
    | _ => refuses 204 ""
    end in
  let req := request_of self "system" "user" "0.7" "gpt-4.1" in
  _call_model self session "system" "user" "0.7" "gpt-4.1" 3 =
    (Raise (mk_exn Exception
       "Model failed after 3 attempts: API returned status 204: "),
     [Post 0 req; Sleep 1; Post 1 req; Sleep 2; Post 2 req]).
Proof.
  intros self session req.
  refine (refused_call_reports_last_status self session "system" "user" "0.7"   "gpt-4.1" _ _ _ "" eq_refl _ eq_refl _ eq_refl _ eq_refl); done.
Defined.

Lemma requests_go_to_the_participant_witness :
  let self := stub_orchestrator "0.7" in
  let q := "Should we use microservices?" in
  let c := finished round1_b (call_round1_b self stub_network q) in
  let r := request_of self get_member_b_prompt q "0.7" "DeepSeek-V3.1" in
  calls (conduct_debate self stub_network q).2 !! 1 = Some c ∧
  call_events c !! 0 = Some (Post 0 r) ∧
  req_url r =
    "https://council.example/openai/deployments/DeepSeek-V3.1/chat/completions?api-version=2024-10-21" ∧
  req_timeout r = 60%Z ∧
  payload_temperature (req_json r) = "0.7" ∧
  ∃ um,
    payload_messages (req_json r) =
      [ {| msg_role := "system"; msg_content := MEMBER_B_PROMPT |};
        {| msg_role := "user"; msg_content := um |} ] ∧
    (round1_b = round1_a ∨ round1_b = round1_b → um = q).
Proof.
  intros self q c r.
  assert (calls (conduct_debate self stub_network q).2 !! 1 = Some c) as Hc
    by (vm_compute; reflexivity).
  assert (call_events c !! 0 = Some (Post 0 r)) as Hr
    by (vm_compute; reflexivity).
  split; [exact Hc|]. split; [exact Hr|].
  exact (requests_go_to_the_participant self stub_network q c 0 r
           (list_elem_of_lookup_2 _ _ _ Hc) (list_elem_of_lookup_2 _ _ _ Hr)).
Defined.

Lemma none_reply_stops_the_debate_witness :
  let self := stub_orchestrator "0.7" in
  let q := "Should we use microservices?" in
  let c := finished round1_b (call_round1_b self round1_b_null q) in
  let t := (conduct_debate self round1_b_null q).2 in
  calls t !! 1 = Some c ∧
  call_result c = Return PyNone ∧
  (conduct_debate self round1_b_null q).1 = Raise (debate_failed no_len) ∧
  (call_stage c = round1_a ∨ last (calls t) = Some c).
Proof.
  intros self q c t.
  assert (calls t !! 1 = Some c) as Hc by (vm_compute; reflexivity).
  assert (call_result c = Return PyNone) as Hn by (vm_compute; reflexivity).
  split; [exact Hc|]. split; [exact Hn|].
  apply (none_reply_stops_the_debate self round1_b_null q c
           (list_elem_of_lookup_2 _ _ _ Hc) Hn).
  intros c' Hc'. apply list_elem_of_lookup_1 in Hc' as [i Hi].
  destruct i as [|[|i]]; vm_compute in Hi; [| |discriminate Hi];
    injection Hi as <-; reflexivity.
Defined.

Lemma format_debate_output_missing_key_witness :
  let g := fresh ∅ in
  let responses : gmap string pyval :=
    {[ "round1_member_a" := PyStr "A1"; "round1_member_b" := PyStr "B1" ]} in
  format_debate_output text_float small_int responses
    (Some (stub_config (Some "key") "0.7")) g
  = (Raise (mk_exn KeyError "'round2_member_a'"), g).
Proof.
  intros g responses.
  refine (format_debate_output_missing_key text_float small_int responses
            (stub_config (Some "key") "0.7") g 2 "round2_member_a"
            eq_refl eq_refl _).
  intros j k' Hj Hk'. destruct j as [|[|j]]; [| |lia];
    injection Hk' as <-; eexists; reflexivity.
Defined.

Lemma format_debate_output_reads_five_keys_witness :
  let g := fresh ∅ in
  let cfg := Some (stub_config (Some "key") "0.7") in
  format_debate_output text_float small_int
    (<["note" := PyStr "scratch"]> (transcript "A1" "B1" "A2" "B2" "C1")) cfg g
  = format_debate_output text_float small_int
      (transcript "A1" "B1" "A2" "B2" "C1") cfg g.
Proof.
  intros g cfg.
  apply (format_debate_output_reads_five_keys text_float small_int).
  intros k Hk. apply lookup_insert_ne. intros <-.
  apply list_elem_of_In in Hk. cbn in Hk.
  repeat (destruct Hk as [Hk|Hk]; [discriminate Hk|]). exact Hk.
Defined.

Lemma format_of_a_returned_debate_witness :
  let self := stub_orchestrator "0.7" in
  let q := "Should we use microservices?" in
  (conduct_debate self stub_network q).1
    = Return (transcript "A1" "B1" "A2" "B2" "C1") ∧
  ∃ a b a2 b2 c,
    (call_round1_a self stub_network q).1 = Return (PyStr a) ∧
    (call_round1_b self stub_network q).1 = Return (PyStr b) ∧
    (call_round2_a self stub_network q (PyStr b)).1 = Return (PyStr a2) ∧
    (call_round2_b self stub_network q (PyStr a) (PyStr a2)).1
      = Return (PyStr b2) ∧
    (call_round3 self stub_network q (PyStr a) (PyStr b) (PyStr a2) (PyStr b2)).1
      = Return (PyStr c) ∧
    ∀ cfg g,
      format_debate_output text_float small_int
        (transcript "A1" "B1" "A2" "B2" "C1") (Some cfg) g
      = (Return (debate_page cfg (PyStr a) (PyStr b) (PyStr a2) (PyStr b2)
                   (PyStr c)), g).
Proof.
  intros self q.
  assert ((conduct_debate self stub_network q).1
          = Return (transcript "A1" "B1" "A2" "B2" "C1")) as H
    by (vm_compute; reflexivity).
  split; [exact H|].
  exact (format_of_a_returned_debate text_float small_int self stub_network q _ H).
Defined.

Lemma process_query_blank_witness :
  let ui := stub_ui "0.7" in
  let g := fresh stub_environ in
  ascii_strip "   " = "" ∧
  process_query text_float small_int ascii_strip ui stub_network "   " g =
    (["Please enter a question or topic for the council to debate."], [], g).
Proof.
  intros ui g.
  assert (ascii_strip "   " = "") as H by reflexivity.
  split; [exact H|].
  exact (proj1 (process_query_blank text_float small_int ascii_strip ui
                  stub_network _ g H)).
Defined.

Lemma process_query_reports_witness :
  let ui := stub_ui "0.7" in
  let g := fresh stub_environ in
  let q := "Should we use microservices?" in
  ascii_strip q ≠ "" ∧
  (process_query text_float small_int ascii_strip ui (down round2_a) q g).2 = g ∧
  (process_query text_float small_int ascii_strip ui (down round2_a) q g).1.2
    = (conduct_debate (ui_orchestrator ui) (down round2_a) q).2.
Proof.
  intros ui g q.
  assert (ascii_strip q ≠ "") as H by (vm_compute; discriminate).
  split; [exact H|].
  destruct (process_query_reports text_float small_int ascii_strip ui
              (down round2_a) q g H) as (Ht & Hg & _).
  split; [exact Hg | exact Ht].
Defined.

Lemma constructed_ui_has_a_key_witness :
  let g := fresh stub_environ in
  let c := loaded_config "0.7" "0.3" 60 in
  let ui := {| ui_config := c; ui_orchestrator := {| config := c |} |} in
  let g' := {| environ := stub_environ; _config_instance := Some c |} in
  CouncilUI__init__ text_float small_int g = (Return ui, g') ∧
  truthy (api_key (ui_config ui)) = true ∧
  get_config text_float small_int g' = (Return (ui_config ui), g').
Proof.
  intros g c ui g'.
  assert (CouncilUI__init__ text_float small_int g = (Return ui, g')) as H
    by (vm_compute; reflexivity).
  split; [exact H|].
  destruct (constructed_ui_has_a_key text_float small_int g ui g' H)
    as (_ & Hk & Hget & _).
  split; [exact Hk | exact Hget].
Defined.
